(** * react-image-cropper: the cropper components and their transform state

    The repository holds four cropper components, spread over three files:

    - [ImageCropper0]: [ImageCropper] of [src/unnamed/part_000], the first
      canvas-based cropper, whose state lives in [React.useRef] cells;
    - [ImageCropperWithDiv1] and [ImageCropper1]: the two components of
      [src/src/ImageCropperWithDiv.tsx], a div-based cropper with
      [React.useState] cells and a canvas-based one with a [resolutionPx]
      prop;
    - [ImageCropperWithDiv2]: [ImageCropperWithDiv] of
      [src/unnamed/part_002], the div-based cropper with controllable props
      and the [onCrop] callback.

    JavaScript numbers are modelled as real numbers: arithmetic is exact and
    there is neither NaN nor an infinity, so a quotient means what the source
    means only where the divisor is not zero.  [Math.max] and [Math.min] are
    [Rmax] and [Rmin].

    A handler is a function on the component's state; what it does to the
    page is a list of effects.  Image loads and file reads complete later
    than the call that starts them: the canvas croppers keep the pending
    loads in their state, the div croppers create, draw and export their
    canvas within one submit. *)

From Stdlib Require Import ZArith Reals Zfloor Lia Lra String List.
Import ListNotations.

Open Scope R_scope.

(** ** JavaScript operators used by the components *)

Module Js.

(** [a ?? b]: [b] only when [a] is null or undefined. *)
Definition nullish {A : Type} (a : option A) (b : A) : A :=
  match a with
  | Some v => v
  | None => b
  end.

(** [a ?? b] where [b] may itself be undefined, as in the left operand of
    [a ?? b ?? c]. *)
Definition nullish_chain {A : Type} (a b : option A) : option A :=
  match a with
  | Some v => Some v
  | None => b
  end.

(** [o?.f]: undefined when [o] is null or undefined, never a TypeError. *)
Definition optional {A B : Type} (o : option A) (f : A -> option B) : option B :=
  match o with
  | Some v => f v
  | None => None
  end.

(** [xs[0]] on an array: undefined when the array is empty. *)
Definition index0 {A : Type} (xs : list A) : option A :=
  match xs with
  | v :: _ => Some v
  | [] => None
  end.

Definition Math_max (a b : R) : R := Rmax a b.
Definition Math_min (a b : R) : R := Rmin a b.

End Js.

Notation "a ?? b" := (Js.nullish a b) (at level 45, right associativity).

(** ** Shared data *)

(** [interface Vector2 { x: number; y: number }] *)
Record Vector2 : Type := mkVector2 { x : R; y : R }.

(** [{ ...prev, x }] and [{ ...prev, y }] *)
Definition spread_x (prev : Vector2) (nx : R) : Vector2 :=
  {| x := nx; y := y prev |}.
Definition spread_y (prev : Vector2) (ny : R) : Vector2 :=
  {| x := x prev; y := ny |}.

(** ** The file input and the FileReader *)

(** [e.target.result] of a FileReader load event: a string, an ArrayBuffer or
    null. *)
Inductive ReaderResult : Type :=
  | ResultString (dataUrl : string)
  | ResultArrayBuffer
  | ResultNull.

(** What [reader.readAsDataURL(file)] leads to: the [onload] handler is called
    with an event whose [target] may be null, or it is never called. *)
Inductive ReadOutcome : Type :=
  | LoadEvent (target : option ReaderResult)
  | NoLoadEvent.

(** A file is identified with what reading it yields. *)
Record File : Type := { readAsDataURL : ReadOutcome }.

(** [React.ChangeEvent<HTMLInputElement>]: [e.target.files] is a FileList or
    null. *)
Record ChangeEvent : Type := { files : option (list File) }.

(** [e.target.files?.[0]] *)
Definition first_file (e : ChangeEvent) : option File :=
  Js.optional (files e) Js.index0.

(** [typeof dataUrl === "string"] on [e.target?.result] *)
Definition string_result (target : option ReaderResult) : option string :=
  match target with
  | Some (ResultString dataUrl) => Some dataUrl
  | _ => None
  end.

(** The data URL a file-change event delivers to the body of
    [reader.onload], when there is one. *)
Definition uploaded (e : ChangeEvent) : option string :=
  match first_file e with
  | Some file =>
      match readAsDataURL file with
      | LoadEvent target => string_result target
      | NoLoadEvent => None
      end
  | None => None
  end.

(** ** Affine maps of the plane *)

(** The matrix [[a c e] [b d f] [0 0 1]] of the canvas and CSS transform
    specifications. *)
Record Matrix : Type := mkMatrix { ma : R; mb : R; mc : R; md : R; me : R; mf : R }.

Definition identity : Matrix := mkMatrix 1 0 0 1 0 0.

(** [mmul m n] applies [n] first and [m] second. *)
Definition mmul (m n : Matrix) : Matrix :=
  {| ma := ma m * ma n + mc m * mb n;
     mb := mb m * ma n + md m * mb n;
     mc := ma m * mc n + mc m * md n;
     md := mb m * mc n + md m * md n;
     me := ma m * me n + mc m * mf n + me m;
     mf := mb m * me n + md m * mf n + mf m |}.

Definition apply (m : Matrix) (p : Vector2) : Vector2 :=
  {| x := ma m * x p + mc m * y p + me m;
     y := mb m * x p + md m * y p + mf m |}.

Definition translation (tx ty : R) : Matrix := mkMatrix 1 0 0 1 tx ty.
Definition rotation_rad (angle : R) : Matrix :=
  mkMatrix (cos angle) (sin angle) (- sin angle) (cos angle) 0 0.
Definition scaling (sx sy : R) : Matrix := mkMatrix sx 0 0 sy 0 0.

(** ** The 2D canvas *)

(** The calls the components make on a [CanvasRenderingContext2D]. *)
Inductive ContextCall : Type :=
  | Translate (tx ty : R)
  | Rotate (angle : R)
  | Scale (sx sy : R)
  | DrawImage (src : string) (sx sy sWidth sHeight dx dy dWidth dHeight : R).

(** [translate], [rotate] and [scale] multiply the current transformation
    matrix on the right. *)
Definition transform_call (ctm : Matrix) (c : ContextCall) : Matrix :=
  match c with
  | Translate tx ty => mmul ctm (translation tx ty)
  | Rotate angle => mmul ctm (rotation_rad angle)
  | Scale sx sy => mmul ctm (scaling sx sy)
  | DrawImage _ _ _ _ _ _ _ _ _ => ctm
  end.

Definition ctm_of (calls : list ContextCall) : Matrix :=
  fold_left transform_call calls identity.

(** A canvas element: whether [getContext("2d")] yields a context, the
    bitmap size and the calls made since the bitmap was last reset.  Assigning
    [canvas.width] or [canvas.height] resets the bitmap and the context
    state. *)
Record Canvas : Type :=
  { context2d : bool; cwidth : R; cheight : R; calls : list ContextCall }.

(** [canvas.width] and [canvas.height] are [unsigned long] attributes.  A
    number assigned to one is first converted: its fraction is dropped
    (towards zero) and the result taken modulo 2^32. *)
Definition IntegerPart (v : R) : Z :=
  if Rle_dec 0 v then Zfloor v else Zceil v.

Definition ToUint32 (v : R) : Z := (IntegerPart v mod 4294967296)%Z.

(** The attribute then keeps the converted number when it is at most
    2^31 - 1, and takes its default otherwise: 300 for the width, 150 for the
    height. *)
Definition assigned_dimension (default : Z) (v : R) : R :=
  let n := ToUint32 v in
  IZR (if (n <=? 2147483647)%Z then n else default).

Definition assigned_width (v : R) : R := assigned_dimension 300 v.
Definition assigned_height (v : R) : R := assigned_dimension 150 v.

(** [document.createElement("canvas")]: 300 by 150, blank. *)
Definition createCanvas (has2d : bool) : Canvas :=
  {| context2d := has2d; cwidth := 300; cheight := 150; calls := [] |}.

(** [canvas?.getContext("2d")], as the pair the guard
    [if (!canvas || !context) return] tests. *)
Definition drawable (canvas : option Canvas) : option Canvas :=
  Js.optional canvas (fun c => if context2d c then Some c else None).

(** [{ width, height }]: a decoded image, the [imageDimensions] state and the
    measured container all come with these two fields. *)
Record Dimensions : Type := { width : R; height : R }.

(** What the page outside the component provides: for a source string the
    image the browser decodes ([None] when [onload] is never called), the
    PNG encoder behind [canvas.toDataURL("image/png")], and whether a canvas
    made by [document.createElement] yields a 2D context. *)
Record Browser : Type :=
  { decode : string -> option Dimensions;
    toDataURL : Canvas -> string;
    supports2d : bool }.

(** What a handler does to the page besides changing component state. *)
Inductive Effect : Type :=
  | PreventDefault
  | Download (href filename : string)
  | OnCrop (croppedImage : string).

(** [const a = document.createElement("a"); a.href = croppedImage;
    a.download = "cropped-image.png"; a.click()] *)
Definition download (croppedImage : string) : Effect :=
  Download croppedImage "cropped-image.png".

(** ** [ImageCropper] of src/unnamed/part_000 *)

Module ImageCropper0.

(** The four [React.useRef] cells. *)
Record State : Type :=
  { imageSrc : string; zoom : R; rotation : R; pan : Vector2 }.

Definition initial : State :=
  {| imageSrc := EmptyString; zoom := 1; rotation := 0; pan := {| x := 0; y := 0 |} |}.

(** The component in its page: the ref cells, the canvas element behind
    [canvasRef.current] (null while unmounted) and the sources of the images
    whose [onload] is still to come, oldest first. *)
Record World : Type :=
  { refs : State; canvasRef : option Canvas; loading : list string }.

Definition set_refs (s : State) (w : World) : World :=
  {| refs := s; canvasRef := canvasRef w; loading := loading w |}.

Definition set_imageSrc (v : string) (s : State) : State :=
  {| imageSrc := v; zoom := zoom s; rotation := rotation s; pan := pan s |}.
Definition set_zoom (v : R) (s : State) : State :=
  {| imageSrc := imageSrc s; zoom := v; rotation := rotation s; pan := pan s |}.
Definition set_rotation (v : R) (s : State) : State :=
  {| imageSrc := imageSrc s; zoom := zoom s; rotation := v; pan := pan s |}.
Definition set_pan (v : Vector2) (s : State) : State :=
  {| imageSrc := imageSrc s; zoom := zoom s; rotation := rotation s; pan := v |}.

(** [updateCanvas], up to the assignment of [image.onload]: without a canvas
    or a context it returns; otherwise a load of [imageSrc.current] starts. *)
Definition updateCanvas (w : World) : World :=
  match drawable (canvasRef w) with
  | None => w
  | Some _ =>
      {| refs := refs w; canvasRef := canvasRef w;
         loading := loading w ++ [imageSrc (refs w)] |}
  end.

(** The body of [image.onload] in [updateCanvas]: it reads the ref cells as
    they are when the image has loaded.  [size] is a side of the image, a
    whole number, which the canvas attributes keep as it is. *)
Definition onload (s : State) (src : string) (image : Dimensions) (canvas : Canvas)
  : Canvas :=
  let size := Js.Math_min (width image) (height image) in
  let sWidth := width image in
  let sHeight := height image in
  let sx := 0 in
  let sy := 0 in
  let dWidth := sWidth * zoom s in
  let dHeight := sHeight * zoom s in
  let dx := - dWidth / 2 in
  let dy := - dHeight / 2 in
  {| context2d := context2d canvas;
     cwidth := size;
     cheight := size;
     calls :=
       [ Translate (size / 2 + (x (pan s) * dWidth) / 2)
                   (size / 2 + (y (pan s) * dHeight) / 2);
         Rotate ((rotation s * PI) / 180);
         DrawImage src sx sy sWidth sHeight dx dy dWidth dHeight ] |}.

(** The pending loads complete, in order; a source the browser cannot decode
    never calls [onload]. *)
Definition settle (b : Browser) (w : World) : World :=
  {| refs := refs w;
     canvasRef :=
       fold_left
         (fun canvas src =>
            match canvas, decode b src with
            | Some c, Some image => Some (onload (refs w) src image c)
            | _, _ => canvas
            end)
         (loading w) (canvasRef w);
     loading := [] |}.

Definition handleImageChange (e : ChangeEvent) (w : World) : World :=
  let w := set_refs (set_rotation 0 (set_zoom 0.5 (refs w))) w in
  match uploaded e with
  | Some dataUrl => updateCanvas (set_refs (set_imageSrc dataUrl (refs w)) w)
  | None => w
  end.

(** The slider handlers take the slider's value array and store [value[0]].
    [None]: the array is empty, [value[0]] is undefined and not a number. *)
Definition handleZoomChange (value : list R) (w : World) : option World :=
  match Js.index0 value with
  | Some newZoom => Some (updateCanvas (set_refs (set_zoom newZoom (refs w)) w))
  | None => None
  end.

Definition handleRotationChange (value : list R) (w : World) : option World :=
  match Js.index0 value with
  | Some newRotation =>
      Some (updateCanvas (set_refs (set_rotation newRotation (refs w)) w))
  | None => None
  end.

Definition handlePanXChange (value : list R) (w : World) : option World :=
  match Js.index0 value with
  | Some nx =>
      Some (updateCanvas
              (set_refs (set_pan (spread_x (pan (refs w)) nx) (refs w)) w))
  | None => None
  end.

Definition handlePanYChange (value : list R) (w : World) : option World :=
  match Js.index0 value with
  | Some ny =>
      Some (updateCanvas
              (set_refs (set_pan (spread_y (pan (refs w)) ny) (refs w)) w))
  | None => None
  end.

Definition handleSubmit (b : Browser) (w : World) : list Effect :=
  PreventDefault ::
  match drawable (canvasRef w) with
  | Some canvas => [download (toDataURL b canvas)]
  | None => []
  end.

Record WheelEvent : Type := { ctrlKey : bool; deltaY : R }.

Definition trackpadGestureHandler (e : WheelEvent) (w : World) : World :=
  if ctrlKey e then
    let z := zoom (refs w) + - deltaY e / 100 in
    let z := Js.Math_max 0.25 z in
    updateCanvas (set_refs (set_zoom z (refs w)) w)
  else w.

(** [onDrag: ({ delta: [mx, my] }) => ...] *)
Definition onDrag (delta : R * R) (w : World) : World :=
  let '(mx, my) := delta in
  let p := {| x := x (pan (refs w)) + mx / 100;
              y := y (pan (refs w)) + my / 100 |} in
  updateCanvas (set_refs (set_pan p (refs w)) w).

(** [onPinch: ({ offset: [scaleOffset, pinchAngleOffset] }) => ...] *)
Definition onPinch (offset : R * R) (w : World) : World :=
  let '(scaleOffset, pinchAngleOffset) := offset in
  updateCanvas
    (set_refs (set_rotation pinchAngleOffset (set_zoom scaleOffset (refs w))) w).

(** The component as mounted: default refs, the canvas element in place. *)
Definition mounted (has2d : bool) : World :=
  {| refs := initial; canvasRef := Some (createCanvas has2d); loading := [] |}.

End ImageCropper0.

(** ** CSS transforms of the preview *)

(** The transform functions of the preview's [transform] style. *)
Inductive TransformFunction : Type :=
  | CssScale (s : R)
  | CssRotate (deg : R)
  | CssTranslate (tx ty : R).

Definition matrix_of (f : TransformFunction) : Matrix :=
  match f with
  | CssScale s => scaling s s
  | CssRotate deg => rotation_rad ((deg * PI) / 180)
  | CssTranslate tx ty => translation tx ty
  end.

(** A transform list is the product of its functions from left to right, so
    the rightmost function is applied to a point first. *)
Definition css_matrix (fs : list TransformFunction) : Matrix :=
  fold_left (fun m f => mmul m (matrix_of f)) fs identity.

(** The [style] of the preview's inner div, lengths in CSS pixels. *)
Record Style : Type :=
  { style_height : R; style_width : R; transform : list TransformFunction }.

(** ** [ImageCropperWithDiv] of src/src/ImageCropperWithDiv.tsx *)

Module ImageCropperWithDiv1.

(** The [React.useState] cells of the transform and of the image source. *)
Record State : Type :=
  { imageSrc : string; zoom : R; rotation : R; pan : Vector2 }.

Definition initial : State :=
  {| imageSrc := EmptyString; zoom := 1; rotation := 0;
     pan := {| x := 0; y := 0 |} |}.

(** The state setters.  [setPan] is only ever called with an updater
    function, which React applies to the state as it is then. *)
Definition setImageSrc (v : string) (s : State) : State :=
  {| imageSrc := v; zoom := zoom s; rotation := rotation s; pan := pan s |}.
Definition setZoom (v : R) (s : State) : State :=
  {| imageSrc := imageSrc s; zoom := v; rotation := rotation s; pan := pan s |}.
Definition setRotation (v : R) (s : State) : State :=
  {| imageSrc := imageSrc s; zoom := zoom s; rotation := v; pan := pan s |}.
Definition setPan (f : Vector2 -> Vector2) (s : State) : State :=
  {| imageSrc := imageSrc s; zoom := zoom s; rotation := rotation s;
     pan := f (pan s) |}.

Definition handleZoomChange (value : R) (s : State) : State :=
  let newZoom := Js.Math_max 0.25 value in
  setZoom newZoom s.

Definition handleRotationChange (value : R) (s : State) : State :=
  let newRotation := value in
  setRotation newRotation s.

Definition handlePanXChange (value : R) (s : State) : State :=
  setPan (fun prev => spread_x prev value) s.

Definition handlePanYChange (value : R) (s : State) : State :=
  setPan (fun prev => spread_y prev value) s.

Definition handleImageChange (e : ChangeEvent) (s : State) : State :=
  match uploaded e with
  | Some dataUrl =>
      let s := setImageSrc dataUrl s in
      let s := handlePanXChange 0 s in
      let s := handleZoomChange 1 s in
      handleRotationChange 0 s
  | None => s
  end.

(** The gesture handlers read [pan] and [zoom] of the render they were
    created in, [render], and queue their updates on the current state.
    [mx / zoom] is real division: the model says nothing of a zero zoom. *)
Definition onDrag (render : State) (delta : R * R) (s : State) : State :=
  let '(mx, my) := delta in
  let s := handlePanXChange (x (pan render) + mx / zoom render) s in
  handlePanYChange (y (pan render) + my / zoom render) s.

Definition onPinch (render : State) (delta : R * R) (s : State) : State :=
  let '(scaleOffset, pinchAngleOffset) := delta in
  handleZoomChange (zoom render + scaleOffset) s.

(** The body of [image.onload] in [updateCanvas]: the canvas as drawn. *)
Definition onload (resolutionPx : option R) (canvasContainerDims : Dimensions)
    (s : State) (image : Dimensions) (canvas : Canvas) : Canvas :=
  let size := resolutionPx ?? Js.Math_min (width image) (height image) in
  let sWidth := width image in
  let sHeight := height image in
  let sx := 0 in
  let sy := 0 in
  let dWidth := sWidth in
  let dHeight := sHeight in
  let dx := - dWidth / 2 in
  let dy := - dHeight / 2 in
  let normalizedPan :=
    {| x := x (pan s) * (size / width canvasContainerDims) * zoom s;
       y := y (pan s) * (size / height canvasContainerDims) * zoom s |} in
  {| context2d := context2d canvas;
     cwidth := assigned_width size;
     cheight := assigned_height size;
     calls :=
       [ Translate (size / 2 + x normalizedPan) (size / 2 + y normalizedPan);
         Rotate ((rotation s * PI) / 180);
         Scale (zoom s) (zoom s);
         DrawImage (imageSrc s) sx sy sWidth sHeight dx dy dWidth dHeight ] |}.

(** [updateCanvas(element)]: the effects of the call and of the [onload] it
    sets up. *)
Definition updateCanvas (b : Browser) (resolutionPx : option R)
    (canvasContainerDims : Dimensions) (s : State) (element : option Canvas)
  : list Effect :=
  match drawable element with
  | None => []
  | Some canvas =>
      match decode b (imageSrc s) with
      | Some image =>
          [download
             (toDataURL b (onload resolutionPx canvasContainerDims s image canvas))]
      | None => []
      end
  end.

Definition handleSubmit (b : Browser) (resolutionPx : option R)
    (canvasContainerDims : Dimensions) (s : State) : list Effect :=
  let canvasElement := createCanvas (supports2d b) in
  PreventDefault ::
  updateCanvas b resolutionPx canvasContainerDims s (Some canvasElement).

(** The [style] of the preview div for a loaded image. *)
Definition preview_style (canvasContainerDims imageDimensions : Dimensions)
    (s : State) : Style :=
  let imageRatio := width imageDimensions / height imageDimensions in
  {| style_height :=
       if Rlt_dec (width imageDimensions) (height imageDimensions)
       then height canvasContainerDims / imageRatio
       else height canvasContainerDims;
     style_width :=
       if Rlt_dec (width imageDimensions) (height imageDimensions)
       then width canvasContainerDims
       else width canvasContainerDims * imageRatio;
     transform :=
       [ CssScale (zoom s); CssRotate (rotation s);
         CssTranslate (x (pan s)) (y (pan s)) ] |}.

(** What the user can do to the component. *)
Inductive Event : Type :=
  | ImageChange (e : ChangeEvent)
  | ZoomSlider (value : R)
  | RotationSlider (value : R)
  | PanXSlider (value : R)
  | PanYSlider (value : R)
  | Drag (delta : R * R)
  | Pinch (delta : R * R)
  | Submit.

(** One event, handled by the handlers of the latest render. *)
Definition step (s : State) (ev : Event) : State :=
  match ev with
  | ImageChange e => handleImageChange e s
  | ZoomSlider value => handleZoomChange value s
  | RotationSlider value => handleRotationChange value s
  | PanXSlider value => handlePanXChange value s
  | PanYSlider value => handlePanYChange value s
  | Drag delta => onDrag s delta s
  | Pinch delta => onPinch s delta s
  | Submit => s
  end.

Definition run (evs : list Event) : State := fold_left step evs initial.

End ImageCropperWithDiv1.

(** ** [ImageCropper] of src/src/ImageCropperWithDiv.tsx *)

Module ImageCropper1.

(** The four [React.useRef] cells. *)
Record State : Type :=
  { imageSrc : string; zoom : R; rotation : R; pan : Vector2 }.

Definition initial : State :=
  {| imageSrc := EmptyString; zoom := 1; rotation := 0;
     pan := {| x := 0; y := 0 |} |}.

(** The component in its page: the ref cells, the canvas behind
    [canvasRef.current], the bounding rectangle of
    [canvasContainerRef.current] (both null while unmounted) and the sources
    of the images whose [onload] is still to come, oldest first. *)
Record World : Type :=
  { refs : State;
    canvasRef : option Canvas;
    canvasContainerRef : option Dimensions;
    loading : list string }.

Definition set_refs (s : State) (w : World) : World :=
  {| refs := s; canvasRef := canvasRef w;
     canvasContainerRef := canvasContainerRef w; loading := loading w |}.

Definition set_imageSrc (v : string) (s : State) : State :=
  {| imageSrc := v; zoom := zoom s; rotation := rotation s; pan := pan s |}.
Definition set_zoom (v : R) (s : State) : State :=
  {| imageSrc := imageSrc s; zoom := v; rotation := rotation s; pan := pan s |}.
Definition set_rotation (v : R) (s : State) : State :=
  {| imageSrc := imageSrc s; zoom := zoom s; rotation := v; pan := pan s |}.
Definition set_pan (v : Vector2) (s : State) : State :=
  {| imageSrc := imageSrc s; zoom := zoom s; rotation := rotation s; pan := v |}.

(** [updateCanvas], up to the assignment of [image.onload]. *)
Definition updateCanvas (w : World) : World :=
  match drawable (canvasRef w) with
  | None => w
  | Some _ =>
      {| refs := refs w; canvasRef := canvasRef w;
         canvasContainerRef := canvasContainerRef w;
         loading := loading w ++ [imageSrc (refs w)] |}
  end.

(** The body of [image.onload] in [updateCanvas]; [container] is
    [canvasContainerRef.current] at that time. *)
Definition onload (resolutionPx : option R) (container : option Dimensions)
    (s : State) (src : string) (image : Dimensions) (canvas : Canvas) : Canvas :=
  let size :=
    Js.nullish_chain resolutionPx
      (Js.optional container (fun rect => Some (width rect)))
    ?? 512 in
  let sWidth := width image in
  let sHeight := height image in
  let sx := 0 in
  let sy := 0 in
  let ratio := if Rlt_dec sHeight sWidth then sHeight / size else sWidth / size in
  let dWidth := (sWidth * zoom s) / ratio in
  let dHeight := (sHeight * zoom s) / ratio in
  let dx := - dWidth / 2 in
  let dy := - dHeight / 2 in
  {| context2d := context2d canvas;
     cwidth := assigned_width size;
     cheight := assigned_height size;
     calls :=
       [ Translate (size / 2 + x (pan s)) (size / 2 + y (pan s));
         Rotate ((rotation s * PI) / 180);
         DrawImage src sx sy sWidth sHeight dx dy dWidth dHeight ] |}.

(** The pending loads complete, in order. *)
Definition settle (b : Browser) (resolutionPx : option R) (w : World) : World :=
  {| refs := refs w;
     canvasRef :=
       fold_left
         (fun canvas src =>
            match canvas, decode b src with
            | Some c, Some image =>
                Some (onload resolutionPx (canvasContainerRef w) (refs w) src image c)
            | _, _ => canvas
            end)
         (loading w) (canvasRef w);
     canvasContainerRef := canvasContainerRef w;
     loading := [] |}.

Definition handleZoomChange (value : R) (w : World) : World :=
  let newZoom := Js.Math_max 0.25 value in
  updateCanvas (set_refs (set_zoom newZoom (refs w)) w).

Definition handleRotationChange (value : R) (w : World) : World :=
  let newRotation := value in
  updateCanvas (set_refs (set_rotation newRotation (refs w)) w).

Definition handlePanXChange (value : R) (w : World) : World :=
  updateCanvas (set_refs (set_pan (spread_x (pan (refs w)) value) (refs w)) w).

Definition handlePanYChange (value : R) (w : World) : World :=
  updateCanvas (set_refs (set_pan (spread_y (pan (refs w)) value) (refs w)) w).

Definition handleImageChange (e : ChangeEvent) (w : World) : World :=
  match uploaded e with
  | Some dataUrl =>
      let w := set_refs (set_imageSrc dataUrl (refs w)) w in
      let w := handlePanXChange 0 w in
      let w := handleZoomChange 1 w in
      let w := handleRotationChange 0 w in
      updateCanvas w
  | None => w
  end.

Definition handleSubmit (b : Browser) (w : World) : list Effect :=
  PreventDefault ::
  match drawable (canvasRef w) with
  | Some canvas => [download (toDataURL b canvas)]
  | None => []
  end.

(** [onDrag: ({ offset: [mx, my] }) => ...] *)
Definition onDrag (offset : R * R) (w : World) : World :=
  let '(mx, my) := offset in
  let w := handlePanXChange mx w in
  let w := handlePanYChange my w in
  updateCanvas w.

(** [onPinch: ({ offset: [scaleOffset, pinchAngleOffset] }) => ...] *)
Definition onPinch (offset : R * R) (w : World) : World :=
  let '(scaleOffset, pinchAngleOffset) := offset in
  let w := handleZoomChange scaleOffset w in
  let w := handleRotationChange pinchAngleOffset w in
  updateCanvas w.

Definition mounted (has2d : bool) (container : Dimensions) : World :=
  {| refs := initial; canvasRef := Some (createCanvas has2d);
     canvasContainerRef := Some container; loading := [] |}.

Inductive Event : Type :=
  | ImageChange (e : ChangeEvent)
  | ZoomSlider (value : R)
  | RotationSlider (value : R)
  | PanXSlider (value : R)
  | PanYSlider (value : R)
  | Drag (offset : R * R)
  | Pinch (offset : R * R)
  | ImagesLoaded.

(** One event; [ImagesLoaded] is the browser finishing the pending loads.
    A submit changes nothing in the component. *)
Definition step (b : Browser) (resolutionPx : option R) (w : World) (ev : Event)
  : World :=
  match ev with
  | ImageChange e => handleImageChange e w
  | ZoomSlider value => handleZoomChange value w
  | RotationSlider value => handleRotationChange value w
  | PanXSlider value => handlePanXChange value w
  | PanYSlider value => handlePanYChange value w
  | Drag offset => onDrag offset w
  | Pinch offset => onPinch offset w
  | ImagesLoaded => settle b resolutionPx w
  end.

End ImageCropper1.

(** ** [ImageCropperWithDiv] of src/unnamed/part_002 *)

Module ImageCropperWithDiv2.

(** The props.  A setter or callback prop is a function of the caller: the
    model records whether it was passed, and a call of it as a [Call]. *)
Record Props : Type :=
  { prop_zoom : option R;
    prop_setZoom : bool;
    prop_rotation : option R;
    prop_setRotation : bool;
    prop_imageSrc : option string;
    prop_setImageSrc : bool;
    prop_pan : option Vector2;
    prop_setPan : bool;
    resolutionPx : option R;
    onCrop : bool }.

(** [<ImageCropperWithDiv />] *)
Definition no_props : Props :=
  {| prop_zoom := None; prop_setZoom := false;
     prop_rotation := None; prop_setRotation := false;
     prop_imageSrc := None; prop_setImageSrc := false;
     prop_pan := None; prop_setPan := false;
     resolutionPx := None; onCrop := false |}.

(** The internal [React.useState] cells [imageState], [zoomState],
    [rotationState] and [panState]. *)
Record State : Type :=
  { imageState : string; zoomState : R; rotationState : R; panState : Vector2 }.

Definition initial : State :=
  {| imageState := EmptyString; zoomState := 1; rotationState := 0;
     panState := {| x := 0; y := 0 |} |}.

(** What a handler calls outside the component. *)
Inductive Call : Type :=
  | PropSetImageSrc (v : string)
  | PropSetZoom (v : R)
  | PropSetRotation (v : R)
  | PropSetPan (f : Vector2 -> Vector2)
  | Page (e : Effect).

(** A handler updates the internal cells and makes calls, in order. *)
Definition Handler : Type := State -> State * list Call.

Definition skip : Handler := fun s => (s, []).
Definition call (c : Call) : Handler := fun s => (s, [c]).
Definition seq (h k : Handler) : Handler :=
  fun s =>
    let (s1, c1) := h s in
    let (s2, c2) := k s1 in
    (s2, c1 ++ c2).

Notation "h ;; k" := (seq h k) (at level 61, right associativity).

(** [props.imageSrc ?? imageState[0]] and its three siblings *)
Definition imageSrc (p : Props) (s : State) : string :=
  prop_imageSrc p ?? imageState s.
Definition zoom (p : Props) (s : State) : R := prop_zoom p ?? zoomState s.
Definition rotation (p : Props) (s : State) : R :=
  prop_rotation p ?? rotationState s.
Definition pan (p : Props) (s : State) : Vector2 := prop_pan p ?? panState s.

(** [props.setImageSrc ?? imageState[1]] and its three siblings *)
Definition setImageSrc (p : Props) (v : string) : Handler :=
  if prop_setImageSrc p then call (PropSetImageSrc v)
  else fun s =>
         ({| imageState := v; zoomState := zoomState s;
             rotationState := rotationState s; panState := panState s |}, []).

Definition setZoom (p : Props) (v : R) : Handler :=
  if prop_setZoom p then call (PropSetZoom v)
  else fun s =>
         ({| imageState := imageState s; zoomState := v;
             rotationState := rotationState s; panState := panState s |}, []).

Definition setRotation (p : Props) (v : R) : Handler :=
  if prop_setRotation p then call (PropSetRotation v)
  else fun s =>
         ({| imageState := imageState s; zoomState := zoomState s;
             rotationState := v; panState := panState s |}, []).

Definition setPan (p : Props) (f : Vector2 -> Vector2) : Handler :=
  if prop_setPan p then call (PropSetPan f)
  else fun s =>
         ({| imageState := imageState s; zoomState := zoomState s;
             rotationState := rotationState s; panState := f (panState s) |}, []).

Definition handleZoomChange (p : Props) (value : R) : Handler :=
  let newZoom := Js.Math_max 0.25 value in
  setZoom p newZoom.

Definition handleRotationChange (p : Props) (value : R) : Handler :=
  let newRotation := value in
  setRotation p newRotation.

Definition handlePanXChange (p : Props) (value : R) : Handler :=
  setPan p (fun prev => spread_x prev value).

Definition handlePanYChange (p : Props) (value : R) : Handler :=
  setPan p (fun prev => spread_y prev value).

Definition handleImageChange (p : Props) (e : ChangeEvent) : Handler :=
  match uploaded e with
  | Some dataUrl =>
      setImageSrc p dataUrl ;;
      handlePanXChange p 0 ;;
      handleZoomChange p 1 ;;
      handleRotationChange p 0
  | None => skip
  end.

(** The gesture handlers read [pan] and [zoom] of the render they were
    created in.  [mx / zoom] is real division: the model says nothing of a
    zero zoom. *)
Definition onDrag (p : Props) (render : State) (delta : R * R) : Handler :=
  let '(mx, my) := delta in
  handlePanXChange p (x (pan p render) + mx / zoom p render) ;;
  handlePanYChange p (y (pan p render) + my / zoom p render).

Definition onPinch (p : Props) (render : State) (delta : R * R) : Handler :=
  let '(scaleOffset, pinchAngleOffset) := delta in
  handleZoomChange p (zoom p render + scaleOffset).

(** The body of [image.onload] in [drawToCanvas], up to the drawing: the
    canvas as drawn. *)
Definition onload (p : Props) (canvasContainerDims : Dimensions) (s : State)
    (image : Dimensions) (canvas : Canvas) : Canvas :=
  let size := resolutionPx p ?? Js.Math_min (width image) (height image) in
  let sWidth := width image in
  let sHeight := height image in
  let sx := 0 in
  let sy := 0 in
  let dWidth := sWidth in
  let dHeight := sHeight in
  let dx := - dWidth / 2 in
  let dy := - dHeight / 2 in
  let normalizedPan :=
    {| x := x (pan p s) * (size / width canvasContainerDims) * zoom p s;
       y := y (pan p s) * (size / height canvasContainerDims) * zoom p s |} in
  {| context2d := context2d canvas;
     cwidth := assigned_width size;
     cheight := assigned_height size;
     calls :=
       [ Translate (size / 2 + x normalizedPan) (size / 2 + y normalizedPan);
         Rotate ((rotation p s * PI) / 180);
         Scale (zoom p s) (zoom p s);
         DrawImage (imageSrc p s) sx sy sWidth sHeight dx dy dWidth dHeight ] |}.

(** [drawToCanvas()]: the effects of the call and of the [onload] it sets
    up. *)
Definition drawToCanvas (b : Browser) (p : Props)
    (canvasContainerDims : Dimensions) (s : State) : list Effect :=
  let canvas := createCanvas (supports2d b) in
  match drawable (Some canvas) with
  | None => []
  | Some canvas =>
      match decode b (imageSrc p s) with
      | Some image =>
          let croppedImage :=
            toDataURL b (onload p canvasContainerDims s image canvas) in
          if onCrop p then [OnCrop croppedImage] else [download croppedImage]
      | None => []
      end
  end.

Definition handleSubmit (b : Browser) (p : Props)
    (canvasContainerDims : Dimensions) (s : State) : list Effect :=
  PreventDefault :: drawToCanvas b p canvasContainerDims s.

(** The [style] of the preview div for a loaded image. *)
Definition preview_style (p : Props)
    (canvasContainerDims imageDimensions : Dimensions) (s : State) : Style :=
  let imageRatio := width imageDimensions / height imageDimensions in
  {| style_height :=
       if Rlt_dec (width imageDimensions) (height imageDimensions)
       then height canvasContainerDims / imageRatio
       else height canvasContainerDims;
     style_width :=
       if Rlt_dec (width imageDimensions) (height imageDimensions)
       then width canvasContainerDims
       else width canvasContainerDims * imageRatio;
     transform :=
       [ CssScale (zoom p s); CssRotate (rotation p s);
         CssTranslate (x (pan p s)) (y (pan p s)) ] |}.

Inductive Event : Type :=
  | ImageChange (e : ChangeEvent)
  | ZoomSlider (value : R)
  | RotationSlider (value : R)
  | PanXSlider (value : R)
  | PanYSlider (value : R)
  | Drag (delta : R * R)
  | Pinch (delta : R * R)
  | Submit.

(** One event under the props of the latest render. *)
Definition step (b : Browser) (canvasContainerDims : Dimensions) (p : Props)
    (ev : Event) : Handler :=
  match ev with
  | ImageChange e => handleImageChange p e
  | ZoomSlider value => handleZoomChange p value
  | RotationSlider value => handleRotationChange p value
  | PanXSlider value => handlePanXChange p value
  | PanYSlider value => handlePanYChange p value
  | Drag delta => fun s => onDrag p s delta s
  | Pinch delta => fun s => onPinch p s delta s
  | Submit => fun s => (s, map Page (handleSubmit b p canvasContainerDims s))
  end.

(** The internal states the component can be in, whatever the props of each
    render. *)
Inductive reachable : State -> Prop :=
  | reachable_initial : reachable initial
  | reachable_step b dims p ev s :
      reachable s -> reachable (fst (step b dims p ev s)).

End ImageCropperWithDiv2.

(** * Vocabulary of the properties *)

(** ** Inputs *)

(** A file-change event whose single file reads as the data URL [dataUrl]. *)
Definition upload (dataUrl : string) : ChangeEvent :=
  {| files := Some [ {| readAsDataURL := LoadEvent (Some (ResultString dataUrl)) |} ] |}.

(** The canvas element is missing, or it yields no 2D context. *)
Definition missing (canvas : option Canvas) : Prop :=
  match canvas with
  | None => True
  | Some c => context2d c = false
  end.

(** The caller of the part_002 component passes none of the four values and
    none of the four setters: the transform lives in the internal cells. *)
Definition uncontrolled (p : ImageCropperWithDiv2.Props) : Prop :=
  ImageCropperWithDiv2.prop_imageSrc p = None
  /\ ImageCropperWithDiv2.prop_setImageSrc p = false
  /\ ImageCropperWithDiv2.prop_zoom p = None
  /\ ImageCropperWithDiv2.prop_setZoom p = false
  /\ ImageCropperWithDiv2.prop_rotation p = None
  /\ ImageCropperWithDiv2.prop_setRotation p = false
  /\ ImageCropperWithDiv2.prop_pan p = None
  /\ ImageCropperWithDiv2.prop_setPan p = false.

(** A page for examples: it decodes nothing but one 300 by 200 image, encodes
    every canvas alike and gives every new canvas a context; and a measured
    container. *)
Definition sample_url : string := "data:image/png;base64,AA".

Definition sample_browser : Browser :=
  {| decode :=
       fun src =>
         if String.eqb src sample_url
         then Some {| width := 300; height := 200 |}
         else None;
     toDataURL := fun _ => "data:image/png;base64,BB"%string;
     supports2d := true |}.

Definition sample_dims : Dimensions := {| width := 352; height := 352 |}.

(** ** The transform state *)

(** Zoom 1, rotation 0 and pan (0, 0). *)
Definition transform_defaults (z r : R) (p : Vector2) : Prop :=
  z = 1 /\ r = 0 /\ p = {| x := 0; y := 0 |}.

(** ** Output actions *)

Definition is_callback (e : Effect) : bool :=
  match e with
  | OnCrop _ => true
  | _ => false
  end.

Definition is_download (e : Effect) : bool :=
  match e with
  | Download _ _ => true
  | _ => false
  end.

(** How many of the effects satisfy [f]. *)
Definition count (f : Effect -> bool) (effects : list Effect) : nat :=
  length (filter f effects).

(** ** The preview and the export as maps *)

Definition vscale (k : R) (v : Vector2) : Vector2 :=
  {| x := k * x v; y := k * y v |}.
Definition vadd (u v : Vector2) : Vector2 :=
  {| x := x u + x v; y := y u + y v |}.

(** The map of the preview: it takes a point of the preview box, in CSS
    pixels from the centre of the box (the transform origin), to its place
    on screen, in CSS pixels from the same centre.  The box is centred in
    the container. *)
Definition preview_map (p : ImageCropperWithDiv2.Props)
    (dims imageDimensions : Dimensions) (s : ImageCropperWithDiv2.State) : Matrix :=
  css_matrix (transform (ImageCropperWithDiv2.preview_style p dims imageDimensions s)).

(** The map of the export: it takes a point of the drawn image, in units of
    the canvas user space from the centre of the image ([drawImage] puts that
    centre at the origin), to its place on the canvas, in canvas pixels from
    the top left corner. *)
Definition export_map (p : ImageCropperWithDiv2.Props) (dims : Dimensions)
    (s : ImageCropperWithDiv2.State) (image : Dimensions) : Matrix :=
  ctm_of (calls (ImageCropperWithDiv2.onload p dims s image
                   (createCanvas true))).

(** The two maps place the image identically up to the scaling between
    the container and the canvas.  The preview box shows the image with its
    shorter side, [imageSide] image pixels, along the side of the container,
    so the point [v] of the box is the point [(imageSide / containerWidth) v]
    of the image, and the export draws the image in image pixels.  The
    canvas of side [size] is the container scaled by [size / containerWidth]:
    the point of the image lands on the canvas where the preview shows it,
    scaled so and measured from the canvas centre. *)
Definition places_identically (containerWidth imageSide size : R)
    (preview export : Matrix) : Prop :=
  forall v,
    apply export (vscale (imageSide / containerWidth) v) =
    vadd {| x := size / 2; y := size / 2 |}
         (vscale (size / containerWidth) (apply preview v)).

(** The state and the props under which the part_002 component previews and
    draws as the div cropper of src/src/ImageCropperWithDiv.tsx does. *)
Definition as_internal (s : ImageCropperWithDiv1.State)
  : ImageCropperWithDiv2.State :=
  {| ImageCropperWithDiv2.imageState := ImageCropperWithDiv1.imageSrc s;
     ImageCropperWithDiv2.zoomState := ImageCropperWithDiv1.zoom s;
     ImageCropperWithDiv2.rotationState := ImageCropperWithDiv1.rotation s;
     ImageCropperWithDiv2.panState := ImageCropperWithDiv1.pan s |}.

Definition only_resolution (resolutionPx : option R) : ImageCropperWithDiv2.Props :=
  {| ImageCropperWithDiv2.prop_zoom := None;
     ImageCropperWithDiv2.prop_setZoom := false;
     ImageCropperWithDiv2.prop_rotation := None;
     ImageCropperWithDiv2.prop_setRotation := false;
     ImageCropperWithDiv2.prop_imageSrc := None;
     ImageCropperWithDiv2.prop_setImageSrc := false;
     ImageCropperWithDiv2.prop_pan := None;
     ImageCropperWithDiv2.prop_setPan := false;
     ImageCropperWithDiv2.resolutionPx := resolutionPx;
     ImageCropperWithDiv2.onCrop := false |}.

(** ** Where a drawing puts the image *)

(** [drawImage(image, sx, sy, sWidth, sHeight, dx, dy, dWidth, dHeight)]
    takes the source rectangle onto the destination rectangle: where the
    point [u] of the source image, in image pixels, lands in user space. *)
Definition destination_point (sx sy sWidth sHeight dx dy dWidth dHeight : R)
    (u : Vector2) : Vector2 :=
  {| x := dx + (x u - sx) * (dWidth / sWidth);
     y := dy + (y u - sy) * (dHeight / sHeight) |}.

(** Where the first [drawImage] among [cs] paints the point [u] of its
    source image, in canvas pixels, the calls before it having set the
    transformation matrix from [ctm]; [None] when nothing is drawn. *)
Fixpoint painted (ctm : Matrix) (cs : list ContextCall) (u : Vector2)
  : option Vector2 :=
  match cs with
  | [] => None
  | DrawImage _ sx sy sWidth sHeight dx dy dWidth dHeight :: _ =>
      Some (apply ctm
              (destination_point sx sy sWidth sHeight dx dy dWidth dHeight u))
  | c :: rest => painted (transform_call ctm c) rest u
  end.

(** The width and height of the destination rectangle of the first
    [drawImage] among [cs]. *)
Fixpoint destination_size (cs : list ContextCall) : option Dimensions :=
  match cs with
  | [] => None
  | DrawImage _ _ _ _ _ _ _ dWidth dHeight :: _ =>
      Some {| width := dWidth; height := dHeight |}
  | _ :: rest => destination_size rest
  end.

(** The centre of an image, in image pixels. *)
Definition image_centre (image : Dimensions) : Vector2 :=
  {| x := width image / 2; y := height image / 2 |}.

(** [[cos a, -sin a], [sin a, cos a]] applied to [v], [deg] in degrees. *)
Definition rotated (deg : R) (v : Vector2) : Vector2 :=
  let a := (deg * PI) / 180 in
  {| x := cos a * x v - sin a * y v; y := sin a * x v + cos a * y v |}.

(** ** Runs of the later canvas cropper *)

(** The events [evs], in order, on the [ImageCropper] of
    src/src/ImageCropperWithDiv.tsx. *)
Definition Cropper1_run (b : Browser) (resolutionPx : option R)
    (w : ImageCropper1.World) (evs : list ImageCropper1.Event)
  : ImageCropper1.World :=
  fold_left (ImageCropper1.step b resolutionPx) evs w.

(** ** Props of the part_002 component *)

(** The caller passes all four setters. *)
Definition all_setters (p : ImageCropperWithDiv2.Props) : Prop :=
  ImageCropperWithDiv2.prop_setImageSrc p = true
  /\ ImageCropperWithDiv2.prop_setZoom p = true
  /\ ImageCropperWithDiv2.prop_setRotation p = true
  /\ ImageCropperWithDiv2.prop_setPan p = true.

(** The caller passes no setter. *)
Definition no_setters (p : ImageCropperWithDiv2.Props) : Prop :=
  ImageCropperWithDiv2.prop_setImageSrc p = false
  /\ ImageCropperWithDiv2.prop_setZoom p = false
  /\ ImageCropperWithDiv2.prop_setRotation p = false
  /\ ImageCropperWithDiv2.prop_setPan p = false.

(** A call of a setter prop, as opposed to an effect on the page. *)
Definition is_setter_call (c : ImageCropperWithDiv2.Call) : bool :=
  match c with
  | ImageCropperWithDiv2.Page _ => false
  | _ => true
  end.

(** Props with every value held by the caller and every setter passed. *)
Definition controlled_props (z r : R) (src : string) (pn : Vector2)
  : ImageCropperWithDiv2.Props :=
  {| ImageCropperWithDiv2.prop_zoom := Some z;
     ImageCropperWithDiv2.prop_setZoom := true;
     ImageCropperWithDiv2.prop_rotation := Some r;
     ImageCropperWithDiv2.prop_setRotation := true;
     ImageCropperWithDiv2.prop_imageSrc := Some src;
     ImageCropperWithDiv2.prop_setImageSrc := true;
     ImageCropperWithDiv2.prop_pan := Some pn;
     ImageCropperWithDiv2.prop_setPan := true;
     ImageCropperWithDiv2.resolutionPx := None;
     ImageCropperWithDiv2.onCrop := false |}.

(** * Properties *)

(** ** Arithmetic of the clamp *)

Lemma Math_max_floor (lo v : R) : lo <= Js.Math_max lo v.
Proof. unfold Js.Math_max. apply Rmax_l. Qed.

Lemma Math_max_above (lo v : R) : lo <= v -> Js.Math_max lo v = v.
Proof. intros H. unfold Js.Math_max. apply Rmax_right. exact H. Qed.

Lemma Math_max_below (lo v : R) : v <= lo -> Js.Math_max lo v = lo.
Proof. intros H. unfold Js.Math_max. apply Rmax_left. exact H. Qed.

Lemma clamp_one : Js.Math_max 0.25 1 = 1.
Proof. apply Math_max_above. lra. Qed.

(** ** Numbers assigned to the canvas size *)

(** A number from 0 up to 2^31 is kept without its fraction. *)
Lemma assigned_dimension_floor (default : Z) (v : R) :
  0 <= v < 2147483648 ->
  assigned_dimension default v = IZR (Zfloor v).
Proof.
  intros [Hlo Hhi]. unfold assigned_dimension, ToUint32, IntegerPart.
  destruct (Rle_dec 0 v) as [_ | Hneg]; [| contradiction].
  assert (H0 : (0 <= Zfloor v)%Z) by (apply Zfloor_lub; exact Hlo).
  assert (H1 : (Zfloor v < 2147483648)%Z).
  { apply lt_IZR. pose proof (Zfloor_bound v) as [Hb _]. lra. }
  cbv zeta. rewrite Z.mod_small by lia.
  replace (Zfloor v <=? 2147483647)%Z with true
    by (symmetry; apply Z.leb_le; lia).
  reflexivity.
Qed.

(** A whole number from 0 to 2^31 - 1 is kept as it is. *)
Lemma assigned_dimension_whole (default n : Z) :
  (0 <= n <= 2147483647)%Z ->
  assigned_dimension default (IZR n) = IZR n.
Proof.
  intros [Hlo Hhi]. rewrite assigned_dimension_floor.
  - rewrite ZfloorZ. reflexivity.
  - split.
    + apply IZR_le in Hlo. exact Hlo.
    + apply IZR_lt. lia.
Qed.

(** ** File-change events *)

Lemma uploaded_upload (dataUrl : string) : uploaded (upload dataUrl) = Some dataUrl.
Proof. reflexivity. Qed.

Lemma uploaded_no_file (e : ChangeEvent) : first_file e = None -> uploaded e = None.
Proof. intros H. unfold uploaded. rewrite H. reflexivity. Qed.

(** ** The model at work *)

(** In the part_000 cropper an upload starts one image load; when it
    completes the canvas is square with the smaller side of the image, here
    200, and the image is drawn at half size around the canvas centre. *)
Example Cropper0_upload_then_load :
  let b :=
    {| decode := fun _ => Some {| width := 300; height := 200 |};
       toDataURL := fun _ => EmptyString;
       supports2d := true |} in
  let w := ImageCropper0.handleImageChange (upload "data:image/png;base64,AA")
             (ImageCropper0.mounted true) in
  ImageCropper0.loading w = ["data:image/png;base64,AA"%string]
  /\ option_map cwidth (ImageCropper0.canvasRef (ImageCropper0.settle b w)) =
     Some (Rmin 300 200)
  /\ option_map (fun c => length (calls c))
       (ImageCropper0.canvasRef (ImageCropper0.settle b w)) = Some 3%nat
  /\ ImageCropper0.loading (ImageCropper0.settle b w) = [].
Proof. cbn. repeat split. Qed.

(** In the div cropper of src/src/ImageCropperWithDiv.tsx the zoom slider at
    0.1 stores 0.25 and a pinch by 0.5 from zoom 1 stores 1.5. *)
Example Div1_zoom_inputs :
  ImageCropperWithDiv1.zoom
    (ImageCropperWithDiv1.run [ImageCropperWithDiv1.ZoomSlider 0.1]) = 0.25
  /\ ImageCropperWithDiv1.zoom
       (ImageCropperWithDiv1.run [ImageCropperWithDiv1.Pinch (0.5, 0)]) = 1.5.
Proof.
  cbn. split.
  - apply Math_max_below. lra.
  - rewrite Math_max_above by lra. lra.
Qed.

(** In the part_002 cropper with a caller-held zoom the zoom slider only
    calls the caller's setter, with the clamped value. *)
Example Div2_controlled_zoom :
  let p :=
    {| ImageCropperWithDiv2.prop_zoom := Some 2;
       ImageCropperWithDiv2.prop_setZoom := true;
       ImageCropperWithDiv2.prop_rotation := None;
       ImageCropperWithDiv2.prop_setRotation := false;
       ImageCropperWithDiv2.prop_imageSrc := None;
       ImageCropperWithDiv2.prop_setImageSrc := false;
       ImageCropperWithDiv2.prop_pan := None;
       ImageCropperWithDiv2.prop_setPan := false;
       ImageCropperWithDiv2.resolutionPx := None;
       ImageCropperWithDiv2.onCrop := false |} in
  ImageCropperWithDiv2.handleZoomChange p 3 ImageCropperWithDiv2.initial =
  (ImageCropperWithDiv2.initial,
   [ImageCropperWithDiv2.PropSetZoom (Rmax 0.25 3)]).
Proof. reflexivity. Qed.

(** ** Props of [ImageCropperWithDiv2] *)

Lemma uncontrolled_no_props : uncontrolled ImageCropperWithDiv2.no_props.
Proof. repeat split. Qed.

(** Under uncontrolled props every read is a read of the internal cell. *)
Lemma uncontrolled_reads (p : ImageCropperWithDiv2.Props)
    (s : ImageCropperWithDiv2.State) :
  uncontrolled p ->
  ImageCropperWithDiv2.imageSrc p s = ImageCropperWithDiv2.imageState s
  /\ ImageCropperWithDiv2.zoom p s = ImageCropperWithDiv2.zoomState s
  /\ ImageCropperWithDiv2.rotation p s = ImageCropperWithDiv2.rotationState s
  /\ ImageCropperWithDiv2.pan p s = ImageCropperWithDiv2.panState s.
Proof.
  intros (Hi & _ & Hz & _ & Hr & _ & Hp & _).
  unfold ImageCropperWithDiv2.imageSrc, ImageCropperWithDiv2.zoom,
    ImageCropperWithDiv2.rotation, ImageCropperWithDiv2.pan.
  rewrite Hi, Hz, Hr, Hp. repeat split.
Qed.

(** Under uncontrolled props [handleImageChange] makes no call and writes the
    four cells as follows. *)
Lemma Div2_handleImageChange_uncontrolled (p : ImageCropperWithDiv2.Props)
    (e : ChangeEvent) (dataUrl : string) (s : ImageCropperWithDiv2.State) :
  uncontrolled p ->
  uploaded e = Some dataUrl ->
  ImageCropperWithDiv2.handleImageChange p e s =
  ({| ImageCropperWithDiv2.imageState := dataUrl;
      ImageCropperWithDiv2.zoomState := 1;
      ImageCropperWithDiv2.rotationState := 0;
      ImageCropperWithDiv2.panState :=
        spread_x (ImageCropperWithDiv2.panState s) 0 |}, []).
Proof.
  intros (_ & Hsi & _ & Hsz & _ & Hsr & _ & Hsp) Hup.
  unfold ImageCropperWithDiv2.handleImageChange. rewrite Hup.
  unfold ImageCropperWithDiv2.seq, ImageCropperWithDiv2.setImageSrc,
    ImageCropperWithDiv2.handlePanXChange, ImageCropperWithDiv2.handleZoomChange,
    ImageCropperWithDiv2.handleRotationChange, ImageCropperWithDiv2.setPan,
    ImageCropperWithDiv2.setZoom, ImageCropperWithDiv2.setRotation.
  rewrite Hsi, Hsz, Hsr, Hsp. cbn. rewrite clamp_one. reflexivity.
Qed.

(** ** What [updateCanvas] leaves alone *)

(** In the canvas croppers [updateCanvas] only ever adds a pending load. *)
Lemma Cropper0_updateCanvas_refs (w : ImageCropper0.World) :
  ImageCropper0.refs (ImageCropper0.updateCanvas w) = ImageCropper0.refs w.
Proof.
  unfold ImageCropper0.updateCanvas.
  destruct (drawable (ImageCropper0.canvasRef w)); reflexivity.
Qed.

Lemma Cropper0_updateCanvas_canvasRef (w : ImageCropper0.World) :
  ImageCropper0.canvasRef (ImageCropper0.updateCanvas w) = ImageCropper0.canvasRef w.
Proof.
  unfold ImageCropper0.updateCanvas.
  destruct (drawable (ImageCropper0.canvasRef w)); reflexivity.
Qed.

Lemma Cropper1_updateCanvas_refs (w : ImageCropper1.World) :
  ImageCropper1.refs (ImageCropper1.updateCanvas w) = ImageCropper1.refs w.
Proof.
  unfold ImageCropper1.updateCanvas.
  destruct (drawable (ImageCropper1.canvasRef w)); reflexivity.
Qed.

Lemma Cropper1_updateCanvas_canvasRef (w : ImageCropper1.World) :
  ImageCropper1.canvasRef (ImageCropper1.updateCanvas w) = ImageCropper1.canvasRef w.
Proof.
  unfold ImageCropper1.updateCanvas.
  destruct (drawable (ImageCropper1.canvasRef w)); reflexivity.
Qed.

Lemma Cropper1_refs_handleZoomChange (v : R) (w : ImageCropper1.World) :
  ImageCropper1.refs (ImageCropper1.handleZoomChange v w) =
  ImageCropper1.set_zoom (Js.Math_max 0.25 v) (ImageCropper1.refs w).
Proof.
  unfold ImageCropper1.handleZoomChange. cbv zeta.
  rewrite Cropper1_updateCanvas_refs. reflexivity.
Qed.

Lemma Cropper1_refs_handleRotationChange (v : R) (w : ImageCropper1.World) :
  ImageCropper1.refs (ImageCropper1.handleRotationChange v w) =
  ImageCropper1.set_rotation v (ImageCropper1.refs w).
Proof.
  unfold ImageCropper1.handleRotationChange. cbv zeta.
  rewrite Cropper1_updateCanvas_refs. reflexivity.
Qed.

Lemma Cropper1_refs_handlePanXChange (v : R) (w : ImageCropper1.World) :
  ImageCropper1.refs (ImageCropper1.handlePanXChange v w) =
  ImageCropper1.set_pan (spread_x (ImageCropper1.pan (ImageCropper1.refs w)) v)
    (ImageCropper1.refs w).
Proof.
  unfold ImageCropper1.handlePanXChange.
  rewrite Cropper1_updateCanvas_refs. reflexivity.
Qed.

Lemma Cropper1_refs_handlePanYChange (v : R) (w : ImageCropper1.World) :
  ImageCropper1.refs (ImageCropper1.handlePanYChange v w) =
  ImageCropper1.set_pan (spread_y (ImageCropper1.pan (ImageCropper1.refs w)) v)
    (ImageCropper1.refs w).
Proof.
  unfold ImageCropper1.handlePanYChange.
  rewrite Cropper1_updateCanvas_refs. reflexivity.
Qed.

#[local] Ltac cropper1_refs :=
  repeat first
    [ rewrite Cropper1_updateCanvas_refs
    | rewrite Cropper1_refs_handleZoomChange
    | rewrite Cropper1_refs_handleRotationChange
    | rewrite Cropper1_refs_handlePanXChange
    | rewrite Cropper1_refs_handlePanYChange ].

(** ** C1: what an upload resets *)




(** ** C8: the part_000 [handleImageChange] writes before it looks for a file *)

(** C8.  In the [ImageCropper] of part_000 every call of [handleImageChange]
    leaves the zoom at 0.5 and the rotation at 0, whatever the event; when
    the event carries no file the call does nothing else, so the two cells
    are written all the same, and from the mounted component (zoom 1) such a
    call changes the state. *)
Theorem C8_handleImageChange_writes_first :
  (forall e w,
     let s' := ImageCropper0.refs (ImageCropper0.handleImageChange e w) in
     ImageCropper0.zoom s' = 0.5 /\ ImageCropper0.rotation s' = 0)
  /\ (forall e w,
        first_file e = None ->
        ImageCropper0.handleImageChange e w =
        ImageCropper0.set_refs
          (ImageCropper0.set_rotation 0
             (ImageCropper0.set_zoom 0.5 (ImageCropper0.refs w))) w)
  /\ (forall has2d,
        ImageCropper0.handleImageChange {| files := None |}
          (ImageCropper0.mounted has2d)
        <> ImageCropper0.mounted has2d).
Proof.
  repeat apply conj.
  - intros e w. unfold ImageCropper0.handleImageChange. cbv zeta.
    destruct (uploaded e); [rewrite Cropper0_updateCanvas_refs|]; split; reflexivity.
  - intros e w Hno. unfold ImageCropper0.handleImageChange.
    rewrite (uploaded_no_file e Hno). reflexivity.
  - intros has2d H.
    apply (f_equal (fun w => ImageCropper0.zoom (ImageCropper0.refs w))) in H.
    cbn in H. lra.
Qed.

Lemma C8_handleImageChange_writes_first_witness :
  first_file {| files := Some [] |} = None
  /\ ImageCropper0.handleImageChange {| files := Some [] |}
       (ImageCropper0.mounted true) =
     ImageCropper0.set_refs
       (ImageCropper0.set_rotation 0
          (ImageCropper0.set_zoom 0.5
             (ImageCropper0.refs (ImageCropper0.mounted true))))
       (ImageCropper0.mounted true).
Proof.
  split.
  - reflexivity.
  - apply (proj1 (proj2 C8_handleImageChange_writes_first)). reflexivity.
Defined.

(** ** C9: the pan handlers touch one component only *)

(** C9.  In every cropper the pan-X handler called with [v] sets the x
    component of the pan to [v] and leaves the y component, the zoom, the
    rotation and the image source as they were; the pan-Y handler does the
    same with x and y exchanged.  In the part_002 component this holds of the
    internal cells and of the values read through the props, and when the
    caller passed [setPan] the handler's single call hands it an updater that
    changes that one component. *)
Theorem C9_pan_change_frame :
  (forall v s,
     let s' := ImageCropperWithDiv1.handlePanXChange v s in
     ImageCropperWithDiv1.pan s' = {| x := v; y := y (ImageCropperWithDiv1.pan s) |}
     /\ ImageCropperWithDiv1.zoom s' = ImageCropperWithDiv1.zoom s
     /\ ImageCropperWithDiv1.rotation s' = ImageCropperWithDiv1.rotation s
     /\ ImageCropperWithDiv1.imageSrc s' = ImageCropperWithDiv1.imageSrc s)
  /\ (forall v s,
        let s' := ImageCropperWithDiv1.handlePanYChange v s in
        ImageCropperWithDiv1.pan s' = {| x := x (ImageCropperWithDiv1.pan s); y := v |}
        /\ ImageCropperWithDiv1.zoom s' = ImageCropperWithDiv1.zoom s
        /\ ImageCropperWithDiv1.rotation s' = ImageCropperWithDiv1.rotation s
        /\ ImageCropperWithDiv1.imageSrc s' = ImageCropperWithDiv1.imageSrc s)
  /\ (forall p v s,
        let r := ImageCropperWithDiv2.handlePanXChange p v s in
        let s' := fst r in
        ImageCropperWithDiv2.zoomState s' = ImageCropperWithDiv2.zoomState s
        /\ ImageCropperWithDiv2.rotationState s' = ImageCropperWithDiv2.rotationState s
        /\ ImageCropperWithDiv2.imageState s' = ImageCropperWithDiv2.imageState s
        /\ y (ImageCropperWithDiv2.panState s') = y (ImageCropperWithDiv2.panState s)
        /\ ImageCropperWithDiv2.zoom p s' = ImageCropperWithDiv2.zoom p s
        /\ ImageCropperWithDiv2.rotation p s' = ImageCropperWithDiv2.rotation p s
        /\ ImageCropperWithDiv2.imageSrc p s' = ImageCropperWithDiv2.imageSrc p s
        /\ y (ImageCropperWithDiv2.pan p s') = y (ImageCropperWithDiv2.pan p s)
        /\ if ImageCropperWithDiv2.prop_setPan p
           then s' = s
                /\ exists f, snd r = [ImageCropperWithDiv2.PropSetPan f]
                             /\ forall prev, f prev = {| x := v; y := y prev |}
           else x (ImageCropperWithDiv2.panState s') = v /\ snd r = [])
  /\ (forall p v s,
        let r := ImageCropperWithDiv2.handlePanYChange p v s in
        let s' := fst r in
        ImageCropperWithDiv2.zoomState s' = ImageCropperWithDiv2.zoomState s
        /\ ImageCropperWithDiv2.rotationState s' = ImageCropperWithDiv2.rotationState s
        /\ ImageCropperWithDiv2.imageState s' = ImageCropperWithDiv2.imageState s
        /\ x (ImageCropperWithDiv2.panState s') = x (ImageCropperWithDiv2.panState s)
        /\ ImageCropperWithDiv2.zoom p s' = ImageCropperWithDiv2.zoom p s
        /\ ImageCropperWithDiv2.rotation p s' = ImageCropperWithDiv2.rotation p s
        /\ ImageCropperWithDiv2.imageSrc p s' = ImageCropperWithDiv2.imageSrc p s
        /\ x (ImageCropperWithDiv2.pan p s') = x (ImageCropperWithDiv2.pan p s)
        /\ if ImageCropperWithDiv2.prop_setPan p
           then s' = s
                /\ exists f, snd r = [ImageCropperWithDiv2.PropSetPan f]
                             /\ forall prev, f prev = {| x := x prev; y := v |}
           else y (ImageCropperWithDiv2.panState s') = v /\ snd r = [])
  /\ (forall v w,
        let s' := ImageCropper1.refs (ImageCropper1.handlePanXChange v w) in
        let s := ImageCropper1.refs w in
        ImageCropper1.pan s' = {| x := v; y := y (ImageCropper1.pan s) |}
        /\ ImageCropper1.zoom s' = ImageCropper1.zoom s
        /\ ImageCropper1.rotation s' = ImageCropper1.rotation s
        /\ ImageCropper1.imageSrc s' = ImageCropper1.imageSrc s)
  /\ (forall v w,
        let s' := ImageCropper1.refs (ImageCropper1.handlePanYChange v w) in
        let s := ImageCropper1.refs w in
        ImageCropper1.pan s' = {| x := x (ImageCropper1.pan s); y := v |}
        /\ ImageCropper1.zoom s' = ImageCropper1.zoom s
        /\ ImageCropper1.rotation s' = ImageCropper1.rotation s
        /\ ImageCropper1.imageSrc s' = ImageCropper1.imageSrc s)
  /\ (forall v rest w,
        option_map ImageCropper0.refs
          (ImageCropper0.handlePanXChange (v :: rest) w) =
        let s := ImageCropper0.refs w in
        Some {| ImageCropper0.imageSrc := ImageCropper0.imageSrc s;
                ImageCropper0.zoom := ImageCropper0.zoom s;
                ImageCropper0.rotation := ImageCropper0.rotation s;
                ImageCropper0.pan := {| x := v; y := y (ImageCropper0.pan s) |} |})
  /\ (forall v rest w,
        option_map ImageCropper0.refs
          (ImageCropper0.handlePanYChange (v :: rest) w) =
        let s := ImageCropper0.refs w in
        Some {| ImageCropper0.imageSrc := ImageCropper0.imageSrc s;
                ImageCropper0.zoom := ImageCropper0.zoom s;
                ImageCropper0.rotation := ImageCropper0.rotation s;
                ImageCropper0.pan := {| x := x (ImageCropper0.pan s); y := v |} |}).
Proof.
  repeat apply conj.
  - intros v s. repeat split.
  - intros v s. repeat split.
  - intros p v s.
    unfold ImageCropperWithDiv2.handlePanXChange, ImageCropperWithDiv2.setPan,
      ImageCropperWithDiv2.zoom, ImageCropperWithDiv2.rotation,
      ImageCropperWithDiv2.imageSrc, ImageCropperWithDiv2.pan.
    destruct (ImageCropperWithDiv2.prop_setPan p), (ImageCropperWithDiv2.prop_pan p);
      cbn; repeat split; eexists; split; reflexivity.
  - intros p v s.
    unfold ImageCropperWithDiv2.handlePanYChange, ImageCropperWithDiv2.setPan,
      ImageCropperWithDiv2.zoom, ImageCropperWithDiv2.rotation,
      ImageCropperWithDiv2.imageSrc, ImageCropperWithDiv2.pan.
    destruct (ImageCropperWithDiv2.prop_setPan p), (ImageCropperWithDiv2.prop_pan p);
      cbn; repeat split; eexists; split; reflexivity.
  - intros v w. cbv zeta. cropper1_refs. repeat split.
  - intros v w. cbv zeta. cropper1_refs. repeat split.
  - intros v rest w. cbn. rewrite Cropper0_updateCanvas_refs. reflexivity.
  - intros v rest w. cbn. rewrite Cropper0_updateCanvas_refs. reflexivity.
Qed.

(** ** C2 and C10: the zoom floor *)

(** The zoom handlers of the three later components store the clamped
    value. *)
Lemma Div1_handleZoomChange_stores (v : R) (s : ImageCropperWithDiv1.State) :
  ImageCropperWithDiv1.zoom (ImageCropperWithDiv1.handleZoomChange v s) =
  Rmax 0.25 v.
Proof. reflexivity. Qed.

Lemma Cropper1_handleZoomChange_stores (v : R) (w : ImageCropper1.World) :
  ImageCropper1.zoom (ImageCropper1.refs (ImageCropper1.handleZoomChange v w)) =
  Rmax 0.25 v.
Proof. rewrite Cropper1_refs_handleZoomChange. reflexivity. Qed.

Lemma Div2_handleZoomChange_stores (p : ImageCropperWithDiv2.Props) (v : R)
    (s : ImageCropperWithDiv2.State) :
  ImageCropperWithDiv2.prop_setZoom p = false ->
  ImageCropperWithDiv2.zoomState
    (fst (ImageCropperWithDiv2.handleZoomChange p v s)) = Rmax 0.25 v.
Proof.
  intros H. unfold ImageCropperWithDiv2.handleZoomChange,
    ImageCropperWithDiv2.setZoom. rewrite H. reflexivity.
Qed.

(** In [ImageCropperWithDiv1] the floor is kept by every event. *)
Lemma Div1_step_floor (s : ImageCropperWithDiv1.State)
    (ev : ImageCropperWithDiv1.Event) :
  0.25 <= ImageCropperWithDiv1.zoom s ->
  0.25 <= ImageCropperWithDiv1.zoom (ImageCropperWithDiv1.step s ev).
Proof.
  intros H. destruct ev as [e | v | v | v | v | [mx my] | [ds da] | ]; cbn;
    try exact H; try apply Math_max_floor.
  unfold ImageCropperWithDiv1.handleImageChange.
  destruct (uploaded e); cbn; [apply Math_max_floor | exact H].
Qed.

Lemma Div1_run_floor (evs : list ImageCropperWithDiv1.Event) :
  0.25 <= ImageCropperWithDiv1.zoom (ImageCropperWithDiv1.run evs).
Proof.
  unfold ImageCropperWithDiv1.run.
  assert (Hinit : 0.25 <= ImageCropperWithDiv1.zoom ImageCropperWithDiv1.initial)
    by (cbn; lra).
  revert Hinit. generalize ImageCropperWithDiv1.initial as s.
  induction evs as [| ev evs IH]; intros s Hs; cbn.
  - exact Hs.
  - apply IH. apply Div1_step_floor. exact Hs.
Qed.

(** In [ImageCropper1] the floor is kept by every event. *)
Lemma Cropper1_step_floor (b : Browser) (resolutionPx : option R)
    (w : ImageCropper1.World) (ev : ImageCropper1.Event) :
  0.25 <= ImageCropper1.zoom (ImageCropper1.refs w) ->
  0.25 <= ImageCropper1.zoom
            (ImageCropper1.refs (ImageCropper1.step b resolutionPx w ev)).
Proof.
  intros H. destruct ev as [e | v | v | v | v | [mx my] | [ds da] | ];
    unfold ImageCropper1.step, ImageCropper1.handleImageChange,
      ImageCropper1.onDrag, ImageCropper1.onPinch;
    try destruct (uploaded e); cbv zeta; cropper1_refs; cbn;
    try exact H; apply Math_max_floor.
Qed.

(** In [ImageCropperWithDiv2] the internal zoom cell keeps the floor in every
    reachable state, whatever the props. *)
Lemma Div2_setters_floor (p : ImageCropperWithDiv2.Props)
    (s : ImageCropperWithDiv2.State) :
  (forall v, ImageCropperWithDiv2.zoomState
               (fst (ImageCropperWithDiv2.setImageSrc p v s))
             = ImageCropperWithDiv2.zoomState s)
  /\ (forall v, ImageCropperWithDiv2.zoomState
                  (fst (ImageCropperWithDiv2.setRotation p v s))
                = ImageCropperWithDiv2.zoomState s)
  /\ (forall f, ImageCropperWithDiv2.zoomState
                  (fst (ImageCropperWithDiv2.setPan p f s))
                = ImageCropperWithDiv2.zoomState s).
Proof.
  unfold ImageCropperWithDiv2.setImageSrc, ImageCropperWithDiv2.setRotation,
    ImageCropperWithDiv2.setPan.
  destruct (ImageCropperWithDiv2.prop_setImageSrc p),
    (ImageCropperWithDiv2.prop_setRotation p),
    (ImageCropperWithDiv2.prop_setPan p); repeat split.
Qed.

Lemma Div2_handleZoomChange_floor (p : ImageCropperWithDiv2.Props) (v : R)
    (s : ImageCropperWithDiv2.State) :
  0.25 <= ImageCropperWithDiv2.zoomState s ->
  0.25 <= ImageCropperWithDiv2.zoomState
            (fst (ImageCropperWithDiv2.handleZoomChange p v s)).
Proof.
  intros H. unfold ImageCropperWithDiv2.handleZoomChange,
    ImageCropperWithDiv2.setZoom.
  destruct (ImageCropperWithDiv2.prop_setZoom p); cbn;
    [exact H | apply Math_max_floor].
Qed.

Lemma Div2_seq_fst (h k : ImageCropperWithDiv2.Handler)
    (s : ImageCropperWithDiv2.State) :
  fst (ImageCropperWithDiv2.seq h k s) = fst (k (fst (h s))).
Proof.
  unfold ImageCropperWithDiv2.seq. destruct (h s) as [s1 c1]. cbn.
  destruct (k s1) as [s2 c2]. reflexivity.
Qed.

Lemma Div2_step_floor (b : Browser) (dims : Dimensions)
    (p : ImageCropperWithDiv2.Props) (ev : ImageCropperWithDiv2.Event)
    (s : ImageCropperWithDiv2.State) :
  0.25 <= ImageCropperWithDiv2.zoomState s ->
  0.25 <= ImageCropperWithDiv2.zoomState
            (fst (ImageCropperWithDiv2.step b dims p ev s)).
Proof.
  intros H.
  destruct ev as [e | v | v | v | v | [mx my] | [ds da] | ]; cbn.
  - unfold ImageCropperWithDiv2.handleImageChange.
    destruct (uploaded e) as [dataUrl |]; [| exact H].
    rewrite !Div2_seq_fst.
    unfold ImageCropperWithDiv2.handleRotationChange.
    rewrite (proj1 (proj2 (Div2_setters_floor p _))).
    apply Div2_handleZoomChange_floor.
    unfold ImageCropperWithDiv2.handlePanXChange.
    rewrite (proj2 (proj2 (Div2_setters_floor p _))).
    rewrite (proj1 (Div2_setters_floor p _)). exact H.
  - apply Div2_handleZoomChange_floor. exact H.
  - unfold ImageCropperWithDiv2.handleRotationChange.
    rewrite (proj1 (proj2 (Div2_setters_floor p _))). exact H.
  - unfold ImageCropperWithDiv2.handlePanXChange.
    rewrite (proj2 (proj2 (Div2_setters_floor p _))). exact H.
  - unfold ImageCropperWithDiv2.handlePanYChange.
    rewrite (proj2 (proj2 (Div2_setters_floor p _))). exact H.
  - rewrite Div2_seq_fst.
    unfold ImageCropperWithDiv2.handlePanXChange,
      ImageCropperWithDiv2.handlePanYChange.
    rewrite !(proj2 (proj2 (Div2_setters_floor p _))). exact H.
  - apply Div2_handleZoomChange_floor. exact H.
  - exact H.
Qed.

Lemma Div2_reachable_floor (s : ImageCropperWithDiv2.State) :
  ImageCropperWithDiv2.reachable s -> 0.25 <= ImageCropperWithDiv2.zoomState s.
Proof.
  induction 1 as [| b dims p ev s Hs IH].
  - cbn. lra.
  - apply Div2_step_floor. exact IH.
Qed.

(** The wheel handler of the part_000 component does clamp. *)
Lemma Cropper0_wheel_floor (e : ImageCropper0.WheelEvent) (w : ImageCropper0.World) :
  ImageCropper0.ctrlKey e = true ->
  0.25 <= ImageCropper0.zoom
            (ImageCropper0.refs (ImageCropper0.trackpadGestureHandler e w)).
Proof.
  intros H. unfold ImageCropper0.trackpadGestureHandler. rewrite H. cbv zeta.
  rewrite Cropper0_updateCanvas_refs. cbn. apply Math_max_floor.
Qed.

(** C2, at the input where the code leaves the floor.  In the
    [ImageCropper] of part_000 a pinch whose scale offset is 0.1 on the
    mounted component stores 0.1 as the zoom, below 0.25, and the zoom
    handler called with the value array [[0.1]] stores 0.1 as well: neither
    path clamps. *)
Theorem C2_part000_zoom_unclamped :
  let w := ImageCropper0.mounted true in
  ImageCropper0.zoom (ImageCropper0.refs (ImageCropper0.onPinch (0.1, 0) w)) = 0.1
  /\ option_map (fun w' => ImageCropper0.zoom (ImageCropper0.refs w'))
       (ImageCropper0.handleZoomChange [0.1] w) = Some 0.1
  /\ 0.1 < 0.25
  /\ 0.1 <> Rmax 0.25 0.1.
Proof.
  cbn. repeat split; try lra.
  rewrite Rmax_left by lra. lra.
Qed.

(** C10.  In the [ImageCropperWithDiv] of part_002, in every reachable state
    and under props without a [zoom] value, the zoom the drag handler divides
    by is at least 0.25, hence positive and not zero. *)
Theorem C10_drag_divisor_positive (p : ImageCropperWithDiv2.Props)
    (s : ImageCropperWithDiv2.State) :
  ImageCropperWithDiv2.reachable s ->
  ImageCropperWithDiv2.prop_zoom p = None ->
  0.25 <= ImageCropperWithDiv2.zoom p s
  /\ 0 < ImageCropperWithDiv2.zoom p s
  /\ ImageCropperWithDiv2.zoom p s <> 0.
Proof.
  intros Hreach Hp. unfold ImageCropperWithDiv2.zoom. rewrite Hp. cbn.
  pose proof (Div2_reachable_floor s Hreach) as H. repeat split; lra.
Qed.

Lemma C10_drag_divisor_positive_witness :
  let s :=
    fst (ImageCropperWithDiv2.step sample_browser sample_dims
           ImageCropperWithDiv2.no_props
           (ImageCropperWithDiv2.Pinch (-5, 0)) ImageCropperWithDiv2.initial) in
  ImageCropperWithDiv2.reachable s
  /\ ImageCropperWithDiv2.prop_zoom ImageCropperWithDiv2.no_props = None
  /\ ImageCropperWithDiv2.zoom ImageCropperWithDiv2.no_props s <> 0.
Proof.
  split; [| split].
  - apply ImageCropperWithDiv2.reachable_step.
    apply ImageCropperWithDiv2.reachable_initial.
  - reflexivity.
  - apply C10_drag_divisor_positive.
    + apply ImageCropperWithDiv2.reachable_step.
      apply ImageCropperWithDiv2.reachable_initial.
    + reflexivity.
Defined.

(** ** C5: what the sliders and the drag store *)

(** C5 as stated fails on the drag.  In the [ImageCropperWithDiv] of
    part_002, after the zoom slider was set to 0.5, a drag by (4, 6) moves
    the pan from (0, 0) to (8, 12), not by (4, 6). *)
Lemma C5_direct_input_counterexample :
  let p := ImageCropperWithDiv2.no_props in
  let s := fst (ImageCropperWithDiv2.handleZoomChange p 0.5
                  ImageCropperWithDiv2.initial) in
  let s' := fst (ImageCropperWithDiv2.onDrag p s (4, 6) s) in
  ImageCropperWithDiv2.pan p s' = {| x := 8; y := 12 |}
  /\ ~ (x (ImageCropperWithDiv2.pan p s') = x (ImageCropperWithDiv2.pan p s) + 4
        /\ y (ImageCropperWithDiv2.pan p s') = y (ImageCropperWithDiv2.pan p s) + 6).
Proof.
  cbn. unfold Js.Math_max. rewrite Rmax_right by lra. split.
  - unfold spread_y, spread_x. cbn. f_equal; lra.
  - intros [H _]. lra.
Qed.

(** C5, amended.  In every cropper the rotation handler called with [v]
    stores [v] as the rotation and the pan-X and pan-Y handlers store [v] in
    their component of the pan; in the [ImageCropperWithDiv] of part_002 the
    value goes to the internal cell, or, when the caller passed the setter,
    to [setRotation], respectively to [setPan] as an updater that changes
    that component.  A drag by the delta (mx, my) is rescaled.  Both
    [ImageCropperWithDiv] components set the pan to
    (pan.x + mx / zoom, pan.y + my / zoom), pan and zoom being those of the
    render whose handler receives the drag, so that a drag handled by the
    latest render adds (mx / zoom, my / zoom) to the pan (in part_002 through
    [setPan] when the caller passed it).  The [ImageCropper] of part_000 adds
    (mx / 100, my / 100) to the pan; in the [ImageCropper] of
    src/src/ImageCropperWithDiv.tsx the drag handler receives the gesture's
    offset and stores it as the pan. *)
Theorem C5_direct_input :
  (forall v s render mx my,
     ImageCropperWithDiv1.rotation (ImageCropperWithDiv1.handleRotationChange v s) = v
     /\ x (ImageCropperWithDiv1.pan (ImageCropperWithDiv1.handlePanXChange v s)) = v
     /\ y (ImageCropperWithDiv1.pan (ImageCropperWithDiv1.handlePanYChange v s)) = v
     /\ ImageCropperWithDiv1.pan (ImageCropperWithDiv1.onDrag render (mx, my) s) =
        {| x := x (ImageCropperWithDiv1.pan render)
                + mx / ImageCropperWithDiv1.zoom render;
           y := y (ImageCropperWithDiv1.pan render)
                + my / ImageCropperWithDiv1.zoom render |}
     /\ ImageCropperWithDiv1.pan (ImageCropperWithDiv1.onDrag s (mx, my) s) =
        {| x := x (ImageCropperWithDiv1.pan s) + mx / ImageCropperWithDiv1.zoom s;
           y := y (ImageCropperWithDiv1.pan s) + my / ImageCropperWithDiv1.zoom s |})
  /\ (forall p v s render mx my,
        (if ImageCropperWithDiv2.prop_setRotation p
         then ImageCropperWithDiv2.handleRotationChange p v s =
              (s, [ImageCropperWithDiv2.PropSetRotation v])
         else ImageCropperWithDiv2.rotationState
                (fst (ImageCropperWithDiv2.handleRotationChange p v s)) = v
              /\ snd (ImageCropperWithDiv2.handleRotationChange p v s) = [])
        /\ (if ImageCropperWithDiv2.prop_setPan p
            then
              (exists f,
                 ImageCropperWithDiv2.handlePanXChange p v s =
                 (s, [ImageCropperWithDiv2.PropSetPan f])
                 /\ forall prev, f prev = {| x := v; y := y prev |})
              /\ (exists f,
                    ImageCropperWithDiv2.handlePanYChange p v s =
                    (s, [ImageCropperWithDiv2.PropSetPan f])
                    /\ forall prev, f prev = {| x := x prev; y := v |})
            else
              x (ImageCropperWithDiv2.panState
                   (fst (ImageCropperWithDiv2.handlePanXChange p v s))) = v
              /\ y (ImageCropperWithDiv2.panState
                      (fst (ImageCropperWithDiv2.handlePanYChange p v s))) = v)
        /\ (let nx := x (ImageCropperWithDiv2.pan p render)
                      + mx / ImageCropperWithDiv2.zoom p render in
            let ny := y (ImageCropperWithDiv2.pan p render)
                      + my / ImageCropperWithDiv2.zoom p render in
            if ImageCropperWithDiv2.prop_setPan p
            then
              exists f g,
                ImageCropperWithDiv2.onDrag p render (mx, my) s =
                (s, [ImageCropperWithDiv2.PropSetPan f;
                     ImageCropperWithDiv2.PropSetPan g])
                /\ (forall prev, f prev = {| x := nx; y := y prev |})
                /\ (forall prev, g prev = {| x := x prev; y := ny |})
            else
              ImageCropperWithDiv2.panState
                (fst (ImageCropperWithDiv2.onDrag p render (mx, my) s)) =
              {| x := nx; y := ny |}
              /\ snd (ImageCropperWithDiv2.onDrag p render (mx, my) s) = []))
  /\ (forall v w mx my,
        ImageCropper1.rotation
          (ImageCropper1.refs (ImageCropper1.handleRotationChange v w)) = v
        /\ x (ImageCropper1.pan
                (ImageCropper1.refs (ImageCropper1.handlePanXChange v w))) = v
        /\ y (ImageCropper1.pan
                (ImageCropper1.refs (ImageCropper1.handlePanYChange v w))) = v
        /\ ImageCropper1.pan (ImageCropper1.refs (ImageCropper1.onDrag (mx, my) w)) =
           {| x := mx; y := my |})
  /\ (forall v rest w mx my,
        option_map (fun w' => ImageCropper0.rotation (ImageCropper0.refs w'))
          (ImageCropper0.handleRotationChange (v :: rest) w) = Some v
        /\ option_map (fun w' => x (ImageCropper0.pan (ImageCropper0.refs w')))
             (ImageCropper0.handlePanXChange (v :: rest) w) = Some v
        /\ option_map (fun w' => y (ImageCropper0.pan (ImageCropper0.refs w')))
             (ImageCropper0.handlePanYChange (v :: rest) w) = Some v
        /\ ImageCropper0.pan (ImageCropper0.refs (ImageCropper0.onDrag (mx, my) w)) =
           {| x := x (ImageCropper0.pan (ImageCropper0.refs w)) + mx / 100;
              y := y (ImageCropper0.pan (ImageCropper0.refs w)) + my / 100 |}).
Proof.
  repeat apply conj.
  - intros v s render mx my. repeat split.
  - intros p v s render mx my. cbv zeta.
    unfold ImageCropperWithDiv2.onDrag, ImageCropperWithDiv2.seq,
      ImageCropperWithDiv2.handleRotationChange,
      ImageCropperWithDiv2.handlePanXChange, ImageCropperWithDiv2.handlePanYChange,
      ImageCropperWithDiv2.setRotation, ImageCropperWithDiv2.setPan,
      ImageCropperWithDiv2.call.
    destruct (ImageCropperWithDiv2.prop_setRotation p),
      (ImageCropperWithDiv2.prop_setPan p); cbn;
      repeat split;
      try (eexists; split; [reflexivity | intros prev; reflexivity]);
      try (eexists; eexists; split;
           [reflexivity | split; intros prev; reflexivity]).
  - intros v w mx my. unfold ImageCropper1.onDrag. cbv zeta. cropper1_refs.
    repeat split.
  - intros v rest w mx my. unfold ImageCropper0.onDrag. cbn.
    rewrite !Cropper0_updateCanvas_refs. repeat split.
Qed.

(** ** C4: the side of the exported canvas *)

(** C4 as stated fails in the [ImageCropper] of
    src/src/ImageCropperWithDiv.tsx: without [resolutionPx], in a container
    352 pixels wide, a 300 by 200 image is drawn on a canvas of side 352, not
    200. *)
Lemma C4_canvas_size_counterexample :
  let canvas :=
    ImageCropper1.onload None (Some sample_dims) ImageCropper1.initial sample_url
      {| width := 300; height := 200 |} (createCanvas true) in
  cwidth canvas = 352
  /\ cwidth canvas <> Js.Math_min 300 200.
Proof.
  cbn. unfold assigned_width.
  rewrite (assigned_dimension_whole 300 352) by lia.
  split; [reflexivity |].
  unfold Js.Math_min, Rmin. destruct (Rle_dec 300 200); lra.
Qed.

(** C4, amended.  The canvas drawn for an image of width w and height h is
    square, its side the whole part of the number the code assigns to
    [canvas.width] and [canvas.height], when that number is at least 0 and
    below 2^31: the two are integer attributes, and a whole number is kept
    as it is.  In both [ImageCropperWithDiv] components the number is
    [resolutionPx] when that prop is given and min(w, h) otherwise; the
    [ImageCropper] of part_000 has no such prop and always uses min(w, h);
    in the [ImageCropper] of src/src/ImageCropperWithDiv.tsx the number is
    [resolutionPx] when given, otherwise the width of the container's bounding
    rectangle, and 512 when there is no container. *)
Theorem C4_canvas_size :
  (forall resolutionPx dims s image canvas,
     let drawn := ImageCropperWithDiv1.onload resolutionPx dims s image canvas in
     let size :=
       match resolutionPx with
       | Some r => r
       | None => Rmin (width image) (height image)
       end in
     0 <= size < 2147483648 ->
     cheight drawn = cwidth drawn
     /\ cwidth drawn = IZR (Zfloor size)
     /\ (forall n : Z, size = IZR n -> cwidth drawn = size))
  /\ (forall p dims s image canvas,
        let drawn := ImageCropperWithDiv2.onload p dims s image canvas in
        let size :=
          match ImageCropperWithDiv2.resolutionPx p with
          | Some r => r
          | None => Rmin (width image) (height image)
          end in
        0 <= size < 2147483648 ->
        cheight drawn = cwidth drawn
        /\ cwidth drawn = IZR (Zfloor size)
        /\ (forall n : Z, size = IZR n -> cwidth drawn = size))
  /\ (forall s src image canvas,
        let drawn := ImageCropper0.onload s src image canvas in
        cheight drawn = cwidth drawn
        /\ cwidth drawn = Rmin (width image) (height image))
  /\ (forall resolutionPx container s src image canvas,
        let drawn :=
          ImageCropper1.onload resolutionPx container s src image canvas in
        let size :=
          match resolutionPx, container with
          | Some r, _ => r
          | None, Some rect => width rect
          | None, None => 512
          end in
        0 <= size < 2147483648 ->
        cheight drawn = cwidth drawn
        /\ cwidth drawn = IZR (Zfloor size)
        /\ (forall n : Z, size = IZR n -> cwidth drawn = size)).
Proof.
  assert (Hside : forall size,
            0 <= size < 2147483648 ->
            assigned_height size = assigned_width size
            /\ assigned_width size = IZR (Zfloor size)
            /\ (forall n : Z, size = IZR n -> assigned_width size = size)).
  { intros size Hrange. unfold assigned_height, assigned_width.
    rewrite !assigned_dimension_floor by exact Hrange.
    repeat split. intros n ->. rewrite ZfloorZ. reflexivity. }
  repeat apply conj.
  - intros [r |] dims s image canvas; cbv zeta; exact (Hside _).
  - intros p dims s image canvas. cbv zeta.
    unfold ImageCropperWithDiv2.onload. cbn [cwidth cheight].
    destruct (ImageCropperWithDiv2.resolutionPx p); exact (Hside _).
  - intros s src image canvas; split; reflexivity.
  - intros [r |] [rect |] s src image canvas; cbv zeta; exact (Hside _).
Qed.

Lemma C4_canvas_size_witness :
  let container := {| width := 352.5; height := 352.5 |} in
  let drawn :=
    ImageCropper1.onload None (Some container) ImageCropper1.initial sample_url
      {| width := 300; height := 200 |} (createCanvas true) in
  0 <= width container < 2147483648
  /\ cheight drawn = cwidth drawn
  /\ cwidth drawn = IZR (Zfloor 352.5).
Proof.
  cbv zeta.
  assert (H : 0 <= width {| width := 352.5; height := 352.5 |} < 2147483648)
    by (cbn; lra).
  split; [exact H |].
  destruct (proj2 (proj2 (proj2 C4_canvas_size)) None
              (Some {| width := 352.5; height := 352.5 |}) ImageCropper1.initial
              sample_url {| width := 300; height := 200 |} (createCanvas true) H)
    as (Hsq & Hw & _).
  split; [exact Hsq | exact Hw].
Defined.

(** ** C6: what a submit of the part_002 component puts out *)




(** ** C7: nothing happens without a canvas, a context or a file *)

Lemma drawable_missing (canvas : option Canvas) :
  missing canvas -> drawable canvas = None.
Proof.
  destruct canvas as [c |]; cbn; [| reflexivity].
  intros H. rewrite H. reflexivity.
Qed.

(** C7.  When the canvas element or its 2D context is missing, the drawing
    operations ([updateCanvas] of the three components that have it,
    [drawToCanvas] of part_002) return having started no image load and
    produced no effect, and the submit handlers do nothing beyond
    [preventDefault]: no draw, no download, no callback.  When a file-change
    event carries no file, [handleImageChange] starts no load and has no
    effect; in the three later components it leaves the whole state as it
    was.  Every one of these calls returns: the model functions are total and
    read the possibly missing values through [?.] only. *)
Theorem C7_silent_early_return :
  (forall w,
     missing (ImageCropper0.canvasRef w) -> ImageCropper0.updateCanvas w = w)
  /\ (forall b w,
        missing (ImageCropper0.canvasRef w) ->
        ImageCropper0.handleSubmit b w = [PreventDefault])
  /\ (forall w,
        missing (ImageCropper1.canvasRef w) -> ImageCropper1.updateCanvas w = w)
  /\ (forall b w,
        missing (ImageCropper1.canvasRef w) ->
        ImageCropper1.handleSubmit b w = [PreventDefault])
  /\ (forall b resolutionPx dims s element,
        missing element ->
        ImageCropperWithDiv1.updateCanvas b resolutionPx dims s element = [])
  /\ (forall b resolutionPx dims s,
        supports2d b = false ->
        ImageCropperWithDiv1.handleSubmit b resolutionPx dims s = [PreventDefault])
  /\ (forall b p dims s,
        supports2d b = false ->
        ImageCropperWithDiv2.drawToCanvas b p dims s = []
        /\ ImageCropperWithDiv2.handleSubmit b p dims s = [PreventDefault])
  /\ (forall e,
        first_file e = None ->
        (forall s, ImageCropperWithDiv1.handleImageChange e s = s)
        /\ (forall p s, ImageCropperWithDiv2.handleImageChange p e s = (s, []))
        /\ (forall w, ImageCropper1.handleImageChange e w = w)
        /\ (forall w,
              let w' := ImageCropper0.handleImageChange e w in
              ImageCropper0.canvasRef w' = ImageCropper0.canvasRef w
              /\ ImageCropper0.loading w' = ImageCropper0.loading w
              /\ ImageCropper0.imageSrc (ImageCropper0.refs w') =
                 ImageCropper0.imageSrc (ImageCropper0.refs w))).
Proof.
  repeat apply conj.
  - intros w H. unfold ImageCropper0.updateCanvas.
    rewrite (drawable_missing _ H). reflexivity.
  - intros b w H. unfold ImageCropper0.handleSubmit.
    rewrite (drawable_missing _ H). reflexivity.
  - intros w H. unfold ImageCropper1.updateCanvas.
    rewrite (drawable_missing _ H). reflexivity.
  - intros b w H. unfold ImageCropper1.handleSubmit.
    rewrite (drawable_missing _ H). reflexivity.
  - intros b resolutionPx dims s element H.
    unfold ImageCropperWithDiv1.updateCanvas.
    rewrite (drawable_missing _ H). reflexivity.
  - intros b resolutionPx dims s H.
    unfold ImageCropperWithDiv1.handleSubmit, ImageCropperWithDiv1.updateCanvas.
    rewrite H. reflexivity.
  - intros b p dims s H.
    unfold ImageCropperWithDiv2.handleSubmit, ImageCropperWithDiv2.drawToCanvas.
    rewrite H. split; reflexivity.
  - intros e H. repeat apply conj.
    + intros s. unfold ImageCropperWithDiv1.handleImageChange.
      rewrite (uploaded_no_file e H). reflexivity.
    + intros p s. unfold ImageCropperWithDiv2.handleImageChange.
      rewrite (uploaded_no_file e H). reflexivity.
    + intros w. unfold ImageCropper1.handleImageChange.
      rewrite (uploaded_no_file e H). reflexivity.
    + intros w. unfold ImageCropper0.handleImageChange.
      rewrite (uploaded_no_file e H). repeat split.
Qed.

Lemma C7_silent_early_return_witness :
  let w :=
    {| ImageCropper0.refs := ImageCropper0.initial;
       ImageCropper0.canvasRef := Some (createCanvas false);
       ImageCropper0.loading := [] |} in
  let b :=
    {| decode := decode sample_browser;
       toDataURL := toDataURL sample_browser;
       supports2d := false |} in
  missing (ImageCropper0.canvasRef w)
  /\ ImageCropper0.updateCanvas w = w
  /\ supports2d b = false
  /\ ImageCropperWithDiv2.handleSubmit b ImageCropperWithDiv2.no_props
       sample_dims ImageCropperWithDiv2.initial = [PreventDefault]
  /\ first_file {| files := None |} = None
  /\ ImageCropperWithDiv2.handleImageChange ImageCropperWithDiv2.no_props
       {| files := None |} ImageCropperWithDiv2.initial =
     (ImageCropperWithDiv2.initial, []).
Proof.
  cbv zeta.
  split; [reflexivity | split; [| split; [reflexivity | split;
    [| split; [reflexivity |]]]]].
  - apply (proj1 C7_silent_early_return). reflexivity.
  - apply (proj1 (proj2 (proj2 (proj2 (proj2 (proj2 (proj2
             C7_silent_early_return))))))).
    reflexivity.
  - apply (proj2 (proj2 (proj2 (proj2 (proj2 (proj2 (proj2
             C7_silent_early_return)))))) {| files := None |}).
    reflexivity.
Defined.

(** ** C3: the preview and the export as affine maps *)

(** The div cropper of src/src/ImageCropperWithDiv.tsx previews and draws as
    the part_002 one does without props other than [resolutionPx]. *)
Lemma Div1_draws_as_Div2 (resolutionPx : option R) (dims image : Dimensions)
    (s : ImageCropperWithDiv1.State) (canvas : Canvas) :
  ImageCropperWithDiv1.onload resolutionPx dims s image canvas =
  ImageCropperWithDiv2.onload (only_resolution resolutionPx) dims (as_internal s)
    image canvas.
Proof. reflexivity. Qed.

Lemma Div1_previews_as_Div2 (resolutionPx : option R)
    (dims imageDimensions : Dimensions) (s : ImageCropperWithDiv1.State) :
  ImageCropperWithDiv1.preview_style dims imageDimensions s =
  ImageCropperWithDiv2.preview_style (only_resolution resolutionPx) dims
    imageDimensions (as_internal s).
Proof. reflexivity. Qed.

(** The preview's transform list in closed form. *)
Lemma css_scale_rotate_translate (z r px py : R) (v : Vector2) :
  apply (css_matrix [CssScale z; CssRotate r; CssTranslate px py]) v =
  let a := (r * PI) / 180 in
  {| x := z * (cos a * (x v + px) - sin a * (y v + py));
     y := z * (sin a * (x v + px) + cos a * (y v + py)) |}.
Proof. unfold css_matrix, apply. cbn. f_equal; ring. Qed.

(** The export's context calls in closed form. *)
Lemma ctm_translate_rotate_scale (tx ty a z : R) (draw : ContextCall)
    (v : Vector2) :
  transform_call (ctm_of [Translate tx ty; Rotate a; Scale z z]) draw =
  ctm_of [Translate tx ty; Rotate a; Scale z z] ->
  apply (ctm_of [Translate tx ty; Rotate a; Scale z z; draw]) v =
  {| x := tx + z * (cos a * x v - sin a * y v);
     y := ty + z * (sin a * x v + cos a * y v) |}.
Proof.
  intros Hdraw. unfold ctm_of in *. cbn [fold_left] in *. rewrite Hdraw.
  unfold apply. cbn. f_equal; ring.
Qed.

Lemma preview_map_apply (p : ImageCropperWithDiv2.Props)
    (dims imageDimensions : Dimensions) (s : ImageCropperWithDiv2.State)
    (v : Vector2) :
  apply (preview_map p dims imageDimensions s) v =
  let z := ImageCropperWithDiv2.zoom p s in
  let a := (ImageCropperWithDiv2.rotation p s * PI) / 180 in
  let pn := ImageCropperWithDiv2.pan p s in
  {| x := z * (cos a * (x v + x pn) - sin a * (y v + y pn));
     y := z * (sin a * (x v + x pn) + cos a * (y v + y pn)) |}.
Proof.
  unfold preview_map, ImageCropperWithDiv2.preview_style. cbn [transform].
  apply css_scale_rotate_translate.
Qed.

Lemma export_map_apply (p : ImageCropperWithDiv2.Props) (dims : Dimensions)
    (s : ImageCropperWithDiv2.State) (image : Dimensions) (v : Vector2) :
  apply (export_map p dims s image) v =
  let size :=
    ImageCropperWithDiv2.resolutionPx p ?? Js.Math_min (width image) (height image) in
  let z := ImageCropperWithDiv2.zoom p s in
  let a := (ImageCropperWithDiv2.rotation p s * PI) / 180 in
  let pn := ImageCropperWithDiv2.pan p s in
  {| x := size / 2 + x pn * (size / width dims) * z
          + z * (cos a * x v - sin a * y v);
     y := size / 2 + y pn * (size / height dims) * z
          + z * (sin a * x v + cos a * y v) |}.
Proof.
  unfold export_map, ImageCropperWithDiv2.onload. cbn [calls x y].
  rewrite ctm_translate_rotate_scale by reflexivity. reflexivity.
Qed.

(** With no rotation and no [resolutionPx] the two maps agree up to the
    scaling, in a square container. *)
Lemma unrotated_places_identically (p : ImageCropperWithDiv2.Props)
    (dims imageDimensions image : Dimensions) (s : ImageCropperWithDiv2.State) :
  height dims = width dims ->
  ImageCropperWithDiv2.rotation p s = 0 ->
  ImageCropperWithDiv2.resolutionPx p = None ->
  let side := Js.Math_min (width image) (height image) in
  places_identically (width dims) side side
    (preview_map p dims imageDimensions s) (export_map p dims s image).
Proof.
  intros Hsq Hrot Hres. cbv zeta. intros v.
  rewrite preview_map_apply, export_map_apply. cbv zeta.
  rewrite Hsq, Hrot, Hres. cbn [Js.nullish].
  replace (0 * PI / 180) with 0 by lra.
  rewrite cos_0, sin_0. unfold vadd, vscale. cbn. f_equal; ring.
Qed.

(** In a square container the export puts the centre of the image where the
    preview shows it, up to the scaling, plus [k * zoom] times the difference
    between the pan and the rotated pan. *)
Lemma export_centre_offset (p : ImageCropperWithDiv2.Props)
    (dims imageDimensions image : Dimensions) (s : ImageCropperWithDiv2.State) :
  height dims = width dims ->
  let size :=
    ImageCropperWithDiv2.resolutionPx p ?? Js.Math_min (width image) (height image) in
  let k := size / width dims in
  let z := ImageCropperWithDiv2.zoom p s in
  let a := (ImageCropperWithDiv2.rotation p s * PI) / 180 in
  let pn := ImageCropperWithDiv2.pan p s in
  let centre := {| x := 0; y := 0 |} in
  apply (export_map p dims s image) centre =
  vadd
    (vadd {| x := size / 2; y := size / 2 |}
       (vscale k (apply (preview_map p dims imageDimensions s) centre)))
    (vscale (k * z)
       {| x := x pn - (cos a * x pn - sin a * y pn);
          y := y pn - (sin a * x pn + cos a * y pn) |}).
Proof.
  intros Hsq. cbv zeta. rewrite preview_map_apply, export_map_apply. cbv zeta.
  rewrite Hsq. unfold vadd, vscale. cbn. f_equal; ring.
Qed.

Lemma cos_90_degrees : cos ((90 * PI) / 180) = 0.
Proof. replace (90 * PI / 180) with (PI / 2) by lra. apply cos_PI2. Qed.

Lemma sin_90_degrees : sin ((90 * PI) / 180) = 1.
Proof. replace (90 * PI / 180) with (PI / 2) by lra. apply sin_PI2. Qed.

(** C3, at an input where the two maps part.  In the [ImageCropperWithDiv]
    of part_002 without props, with a 100 by 100 image in a 100 by 100
    container (canvas side 100, scaling 1), zoom 1, rotation 90 and pan
    (10, 0): the preview shows the centre of the image 10 pixels below the
    centre of the container, the export draws it 10 pixels to the right of
    the centre of the canvas, so the two do not place the image
    identically. *)
Theorem C3_preview_export_differ :
  let p := ImageCropperWithDiv2.no_props in
  let dims := {| width := 100; height := 100 |} in
  let image := {| width := 100; height := 100 |} in
  let s :=
    {| ImageCropperWithDiv2.imageState := sample_url;
       ImageCropperWithDiv2.zoomState := 1;
       ImageCropperWithDiv2.rotationState := 90;
       ImageCropperWithDiv2.panState := {| x := 10; y := 0 |} |} in
  let centre := {| x := 0; y := 0 |} in
  cwidth (ImageCropperWithDiv2.onload p dims s image (createCanvas true)) = 100
  /\ apply (preview_map p dims image s) centre = {| x := 0; y := 10 |}
  /\ apply (export_map p dims s image) centre = {| x := 50 + 10; y := 50 |}
  /\ ~ places_identically 100 100 100
         (preview_map p dims image s) (export_map p dims s image).
Proof.
  cbv zeta.
  assert (Hmin : Js.Math_min 100 100 = 100)
    by (unfold Js.Math_min; apply Rmin_left; lra).
  assert (Hpre :
    apply (preview_map ImageCropperWithDiv2.no_props
             {| width := 100; height := 100 |} {| width := 100; height := 100 |}
             {| ImageCropperWithDiv2.imageState := sample_url;
                ImageCropperWithDiv2.zoomState := 1;
                ImageCropperWithDiv2.rotationState := 90;
                ImageCropperWithDiv2.panState := {| x := 10; y := 0 |} |})
      {| x := 0; y := 0 |} = {| x := 0; y := 10 |}).
  { rewrite preview_map_apply. cbn.
    rewrite cos_90_degrees, sin_90_degrees. f_equal; lra. }
  assert (Hexp :
    apply (export_map ImageCropperWithDiv2.no_props
             {| width := 100; height := 100 |}
             {| ImageCropperWithDiv2.imageState := sample_url;
                ImageCropperWithDiv2.zoomState := 1;
                ImageCropperWithDiv2.rotationState := 90;
                ImageCropperWithDiv2.panState := {| x := 10; y := 0 |} |}
             {| width := 100; height := 100 |})
      {| x := 0; y := 0 |} = {| x := 50 + 10; y := 50 |}).
  { rewrite export_map_apply. cbn. rewrite Hmin.
    rewrite cos_90_degrees, sin_90_degrees. f_equal; lra. }
  repeat apply conj.
  - cbn. rewrite Hmin. apply (assigned_dimension_whole 300 100). lia.
  - exact Hpre.
  - exact Hexp.
  - intros Hsame. specialize (Hsame {| x := 0; y := 0 |}).
    unfold vscale in Hsame. cbn [x y] in Hsame.
    replace {| x := 100 / 100 * 0; y := 100 / 100 * 0 |}
      with {| x := 0; y := 0 |} in Hsame by (f_equal; lra).
    rewrite Hexp, Hpre in Hsame. apply (f_equal y) in Hsame.
    unfold vadd, vscale in Hsame. cbn in Hsame. lra.
Qed.

(** * Further properties *)

(** ** The wheel handler of part_000 *)

(** X1.  In the [ImageCropper] of part_000 a wheel event with the control key
    held sets the zoom to max(0.25, zoom - deltaY / 100), which is at least
    0.25, and leaves the rotation, the pan, the image source and the canvas
    as they were; without the control key it changes nothing at all. *)
Theorem X1_wheel_zoom (e : ImageCropper0.WheelEvent) (w : ImageCropper0.World) :
  let w' := ImageCropper0.trackpadGestureHandler e w in
  if ImageCropper0.ctrlKey e
  then
    ImageCropper0.zoom (ImageCropper0.refs w') =
      Rmax 0.25 (ImageCropper0.zoom (ImageCropper0.refs w)
                 - ImageCropper0.deltaY e / 100)
    /\ 0.25 <= ImageCropper0.zoom (ImageCropper0.refs w')
    /\ ImageCropper0.rotation (ImageCropper0.refs w') =
       ImageCropper0.rotation (ImageCropper0.refs w)
    /\ ImageCropper0.pan (ImageCropper0.refs w') =
       ImageCropper0.pan (ImageCropper0.refs w)
    /\ ImageCropper0.imageSrc (ImageCropper0.refs w') =
       ImageCropper0.imageSrc (ImageCropper0.refs w)
    /\ ImageCropper0.canvasRef w' = ImageCropper0.canvasRef w
  else w' = w.
Proof.
  cbv zeta. unfold ImageCropper0.trackpadGestureHandler.
  destruct (ImageCropper0.ctrlKey e); [| reflexivity].
  cbv zeta. rewrite Cropper0_updateCanvas_refs, Cropper0_updateCanvas_canvasRef.
  cbn. unfold Js.Math_max. repeat split.
  - f_equal. lra.
  - apply Rmax_l.
Qed.

(** ** The zoom floor over whole runs *)

Lemma Cropper1_run_floor (b : Browser) (resolutionPx : option R)
    (evs : list ImageCropper1.Event) (w : ImageCropper1.World) :
  0.25 <= ImageCropper1.zoom (ImageCropper1.refs w) ->
  0.25 <= ImageCropper1.zoom
            (ImageCropper1.refs (Cropper1_run b resolutionPx w evs)).
Proof.
  unfold Cropper1_run. revert w.
  induction evs as [| ev evs IH]; intros w Hw; cbn.
  - exact Hw.
  - apply IH. apply Cropper1_step_floor. exact Hw.
Qed.

(** X2.  In the two later croppers with internal state that clamp in
    [handleZoomChange], the [ImageCropperWithDiv] and the [ImageCropper] of
    src/src/ImageCropperWithDiv.tsx, the zoom is at least 0.25 after every
    sequence of uploads, slider changes, drags, pinches, submits and completed
    image loads, starting from the mounted component. *)
Theorem X2_zoom_floor_runs :
  (forall evs,
     0.25 <= ImageCropperWithDiv1.zoom (ImageCropperWithDiv1.run evs))
  /\ (forall b resolutionPx has2d container evs,
        0.25 <= ImageCropper1.zoom
                  (ImageCropper1.refs
                     (Cropper1_run b resolutionPx
                        (ImageCropper1.mounted has2d container) evs))).
Proof.
  split.
  - exact Div1_run_floor.
  - intros b resolutionPx has2d container evs. apply Cropper1_run_floor.
    cbn. lra.
Qed.

(** ** Pinches *)

(** X3.  In both div croppers a pinch adds its scale delta to the zoom of the
    render and clamps the sum at 0.25; the pinch angle is ignored: the
    rotation, the pan and the image source stay as they were.  In the
    part_002 component this holds of the internal cells under any props, and
    the only setter a pinch can call is [setZoom]. *)
Theorem X3_div_pinch_zoom_only :
  (forall render scaleOffset pinchAngleOffset s,
     let s' := ImageCropperWithDiv1.onPinch render (scaleOffset, pinchAngleOffset) s in
     ImageCropperWithDiv1.zoom s' =
       Rmax 0.25 (ImageCropperWithDiv1.zoom render + scaleOffset)
     /\ ImageCropperWithDiv1.rotation s' = ImageCropperWithDiv1.rotation s
     /\ ImageCropperWithDiv1.pan s' = ImageCropperWithDiv1.pan s
     /\ ImageCropperWithDiv1.imageSrc s' = ImageCropperWithDiv1.imageSrc s)
  /\ (forall p render scaleOffset pinchAngleOffset s,
        let r := ImageCropperWithDiv2.onPinch p render
                   (scaleOffset, pinchAngleOffset) s in
        let z := Rmax 0.25 (ImageCropperWithDiv2.zoom p render + scaleOffset) in
        ImageCropperWithDiv2.rotationState (fst r) =
          ImageCropperWithDiv2.rotationState s
        /\ ImageCropperWithDiv2.panState (fst r) = ImageCropperWithDiv2.panState s
        /\ ImageCropperWithDiv2.imageState (fst r) =
           ImageCropperWithDiv2.imageState s
        /\ if ImageCropperWithDiv2.prop_setZoom p
           then fst r = s /\ snd r = [ImageCropperWithDiv2.PropSetZoom z]
           else ImageCropperWithDiv2.zoomState (fst r) = z /\ snd r = []).
Proof.
  split.
  - intros render scaleOffset pinchAngleOffset s. repeat split.
  - intros p render scaleOffset pinchAngleOffset s. cbv zeta.
    unfold ImageCropperWithDiv2.onPinch, ImageCropperWithDiv2.handleZoomChange,
      ImageCropperWithDiv2.setZoom.
    destruct (ImageCropperWithDiv2.prop_setZoom p); cbn; repeat split.
Qed.

(** X4.  In the [ImageCropper] of src/src/ImageCropperWithDiv.tsx a pinch
    stores the gesture's offset: the zoom becomes max(0.25, scale offset) and
    the rotation the angle offset; the pan and the image source stay as they
    were, and the same pinch handled twice leaves the ref cells as handled
    once. *)
Theorem X4_canvas_pinch_absolute (scaleOffset pinchAngleOffset : R)
    (w : ImageCropper1.World) :
  let s := ImageCropper1.refs w in
  let s' := ImageCropper1.refs
              (ImageCropper1.onPinch (scaleOffset, pinchAngleOffset) w) in
  ImageCropper1.zoom s' = Rmax 0.25 scaleOffset
  /\ 0.25 <= ImageCropper1.zoom s'
  /\ ImageCropper1.rotation s' = pinchAngleOffset
  /\ ImageCropper1.pan s' = ImageCropper1.pan s
  /\ ImageCropper1.imageSrc s' = ImageCropper1.imageSrc s
  /\ ImageCropper1.refs
       (ImageCropper1.onPinch (scaleOffset, pinchAngleOffset)
          (ImageCropper1.onPinch (scaleOffset, pinchAngleOffset) w)) = s'.
Proof.
  unfold ImageCropper1.onPinch. cbv zeta. cropper1_refs. cbn.
  repeat split. apply Math_max_floor.
Qed.

(** ** Redraws of the later canvas cropper *)

Lemma Cropper1_updateCanvas_loading (w : ImageCropper1.World) (c : Canvas) :
  drawable (ImageCropper1.canvasRef w) = Some c ->
  ImageCropper1.loading (ImageCropper1.updateCanvas w) =
  ImageCropper1.loading w ++ [ImageCropper1.imageSrc (ImageCropper1.refs w)].
Proof.
  intros H. unfold ImageCropper1.updateCanvas. rewrite H. reflexivity.
Qed.

(** With a canvas that yields a context, a write to the ref cells that keeps
    the image source, followed by [updateCanvas], keeps the canvas and the
    source and adds one load of that source. *)
Lemma Cropper1_redraw (f : ImageCropper1.State -> ImageCropper1.State)
    (w : ImageCropper1.World) (c : Canvas) :
  (forall s, ImageCropper1.imageSrc (f s) = ImageCropper1.imageSrc s) ->
  drawable (ImageCropper1.canvasRef w) = Some c ->
  let w' :=
    ImageCropper1.updateCanvas
      (ImageCropper1.set_refs (f (ImageCropper1.refs w)) w) in
  drawable (ImageCropper1.canvasRef w') = Some c
  /\ ImageCropper1.loading w' =
     ImageCropper1.loading w ++ [ImageCropper1.imageSrc (ImageCropper1.refs w)]
  /\ ImageCropper1.imageSrc (ImageCropper1.refs w') =
     ImageCropper1.imageSrc (ImageCropper1.refs w).
Proof.
  intros Hf H. cbv zeta.
  rewrite Cropper1_updateCanvas_canvasRef, Cropper1_updateCanvas_refs.
  rewrite (Cropper1_updateCanvas_loading _ c) by exact H.
  cbn. rewrite Hf. repeat split. exact H.
Qed.

Lemma Cropper1_redraw_plain (w : ImageCropper1.World) (c : Canvas) :
  drawable (ImageCropper1.canvasRef w) = Some c ->
  let w' := ImageCropper1.updateCanvas w in
  drawable (ImageCropper1.canvasRef w') = Some c
  /\ ImageCropper1.loading w' =
     ImageCropper1.loading w ++ [ImageCropper1.imageSrc (ImageCropper1.refs w)]
  /\ ImageCropper1.imageSrc (ImageCropper1.refs w') =
     ImageCropper1.imageSrc (ImageCropper1.refs w).
Proof.
  intros H. cbv zeta.
  rewrite Cropper1_updateCanvas_canvasRef, Cropper1_updateCanvas_refs.
  rewrite (Cropper1_updateCanvas_loading _ c) by exact H.
  repeat split. exact H.
Qed.

Lemma Cropper1_redraw_zoom (v : R) (w : ImageCropper1.World) (c : Canvas) :
  drawable (ImageCropper1.canvasRef w) = Some c ->
  let w' := ImageCropper1.handleZoomChange v w in
  drawable (ImageCropper1.canvasRef w') = Some c
  /\ ImageCropper1.loading w' =
     ImageCropper1.loading w ++ [ImageCropper1.imageSrc (ImageCropper1.refs w)]
  /\ ImageCropper1.imageSrc (ImageCropper1.refs w') =
     ImageCropper1.imageSrc (ImageCropper1.refs w).
Proof.
  intros H.
  exact (Cropper1_redraw (ImageCropper1.set_zoom (Js.Math_max 0.25 v)) w c
           (fun _ => eq_refl) H).
Qed.

Lemma Cropper1_redraw_rotation (v : R) (w : ImageCropper1.World) (c : Canvas) :
  drawable (ImageCropper1.canvasRef w) = Some c ->
  let w' := ImageCropper1.handleRotationChange v w in
  drawable (ImageCropper1.canvasRef w') = Some c
  /\ ImageCropper1.loading w' =
     ImageCropper1.loading w ++ [ImageCropper1.imageSrc (ImageCropper1.refs w)]
  /\ ImageCropper1.imageSrc (ImageCropper1.refs w') =
     ImageCropper1.imageSrc (ImageCropper1.refs w).
Proof.
  intros H.
  exact (Cropper1_redraw (ImageCropper1.set_rotation v) w c (fun _ => eq_refl) H).
Qed.

Lemma Cropper1_redraw_panX (v : R) (w : ImageCropper1.World) (c : Canvas) :
  drawable (ImageCropper1.canvasRef w) = Some c ->
  let w' := ImageCropper1.handlePanXChange v w in
  drawable (ImageCropper1.canvasRef w') = Some c
  /\ ImageCropper1.loading w' =
     ImageCropper1.loading w ++ [ImageCropper1.imageSrc (ImageCropper1.refs w)]
  /\ ImageCropper1.imageSrc (ImageCropper1.refs w') =
     ImageCropper1.imageSrc (ImageCropper1.refs w).
Proof.
  intros H.
  exact (Cropper1_redraw
           (ImageCropper1.set_pan
              (spread_x (ImageCropper1.pan (ImageCropper1.refs w)) v))
           w c (fun _ => eq_refl) H).
Qed.

Lemma Cropper1_redraw_panY (v : R) (w : ImageCropper1.World) (c : Canvas) :
  drawable (ImageCropper1.canvasRef w) = Some c ->
  let w' := ImageCropper1.handlePanYChange v w in
  drawable (ImageCropper1.canvasRef w') = Some c
  /\ ImageCropper1.loading w' =
     ImageCropper1.loading w ++ [ImageCropper1.imageSrc (ImageCropper1.refs w)]
  /\ ImageCropper1.imageSrc (ImageCropper1.refs w') =
     ImageCropper1.imageSrc (ImageCropper1.refs w).
Proof.
  intros H.
  exact (Cropper1_redraw
           (ImageCropper1.set_pan
              (spread_y (ImageCropper1.pan (ImageCropper1.refs w)) v))
           w c (fun _ => eq_refl) H).
Qed.

(** X5.  In the [ImageCropper] of src/src/ImageCropperWithDiv.tsx, with a
    canvas that yields a context, every handler starts one image load per
    [updateCanvas] it reaches: a slider change starts one load of the current
    source, a drag or a pinch three, and an upload four loads of the uploaded
    data URL. *)
Theorem X5_redraws_started (w : ImageCropper1.World) (c : Canvas) :
  ImageCropper1.canvasRef w = Some c ->
  context2d c = true ->
  let src := ImageCropper1.imageSrc (ImageCropper1.refs w) in
  let queue := ImageCropper1.loading w in
  (forall v,
     ImageCropper1.loading (ImageCropper1.handleZoomChange v w) = queue ++ [src]
     /\ ImageCropper1.loading (ImageCropper1.handleRotationChange v w) = queue ++ [src]
     /\ ImageCropper1.loading (ImageCropper1.handlePanXChange v w) = queue ++ [src]
     /\ ImageCropper1.loading (ImageCropper1.handlePanYChange v w) = queue ++ [src])
  /\ (forall offset,
        ImageCropper1.loading (ImageCropper1.onDrag offset w) =
        queue ++ [src; src; src])
  /\ (forall offset,
        ImageCropper1.loading (ImageCropper1.onPinch offset w) =
        queue ++ [src; src; src])
  /\ (forall e dataUrl,
        uploaded e = Some dataUrl ->
        ImageCropper1.loading (ImageCropper1.handleImageChange e w) =
        queue ++ [dataUrl; dataUrl; dataUrl; dataUrl]).
Proof.
  intros Hc H2d. cbv zeta.
  assert (H : drawable (ImageCropper1.canvasRef w) = Some c)
    by (rewrite Hc; cbn; rewrite H2d; reflexivity).
  repeat apply conj.
  - intros v.
    destruct (Cropper1_redraw_zoom v w c H) as (_ & -> & _).
    destruct (Cropper1_redraw_rotation v w c H) as (_ & -> & _).
    destruct (Cropper1_redraw_panX v w c H) as (_ & -> & _).
    destruct (Cropper1_redraw_panY v w c H) as (_ & -> & _).
    repeat split.
  - intros [mx my]. unfold ImageCropper1.onDrag. cbv zeta.
    destruct (Cropper1_redraw_panX mx w c H) as (H1 & L1 & S1).
    destruct (Cropper1_redraw_panY my _ c H1) as (H2 & L2 & S2).
    destruct (Cropper1_redraw_plain _ c H2) as (_ & L3 & _).
    rewrite L3, L2, L1, S2, S1, <- !app_assoc. reflexivity.
  - intros [ds da]. unfold ImageCropper1.onPinch. cbv zeta.
    destruct (Cropper1_redraw_zoom ds w c H) as (H1 & L1 & S1).
    destruct (Cropper1_redraw_rotation da _ c H1) as (H2 & L2 & S2).
    destruct (Cropper1_redraw_plain _ c H2) as (_ & L3 & _).
    rewrite L3, L2, L1, S2, S1, <- !app_assoc. reflexivity.
  - intros e dataUrl Hup. unfold ImageCropper1.handleImageChange.
    rewrite Hup. cbv zeta.
    set (w0 := ImageCropper1.set_refs
                 (ImageCropper1.set_imageSrc dataUrl (ImageCropper1.refs w)) w).
    assert (H0 : drawable (ImageCropper1.canvasRef w0) = Some c) by exact H.
    destruct (Cropper1_redraw_panX 0 w0 c H0) as (H1 & L1 & S1).
    destruct (Cropper1_redraw_zoom 1 _ c H1) as (H2 & L2 & S2).
    destruct (Cropper1_redraw_rotation 0 _ c H2) as (H3 & L3 & S3).
    destruct (Cropper1_redraw_plain _ c H3) as (_ & L4 & _).
    rewrite L4, L3, L2, L1, S3, S2, S1, <- !app_assoc. reflexivity.
Qed.

Lemma X5_redraws_started_witness :
  let w := ImageCropper1.mounted true sample_dims in
  ImageCropper1.canvasRef w = Some (createCanvas true)
  /\ context2d (createCanvas true) = true
  /\ uploaded (upload sample_url) = Some sample_url
  /\ ImageCropper1.loading (ImageCropper1.handleImageChange (upload sample_url) w) =
     [sample_url; sample_url; sample_url; sample_url].
Proof.
  cbv zeta. split; [reflexivity | split; [reflexivity | split; [reflexivity |]]].
  apply (proj2 (proj2 (proj2
           (X5_redraws_started (ImageCropper1.mounted true sample_dims)
              (createCanvas true) eq_refl eq_refl)))
           (upload sample_url) sample_url).
  reflexivity.
Defined.

(** ** Completed image loads *)

(** A drawing overwrites the canvas: of the canvas it starts from it keeps
    only whether it yields a context. *)
Lemma Cropper0_onload_overwrites (s : ImageCropper0.State) (src : string)
    (image : Dimensions) (c c' : Canvas) :
  context2d c' = context2d c ->
  ImageCropper0.onload s src image c' = ImageCropper0.onload s src image c.
Proof. intros H. unfold ImageCropper0.onload. rewrite H. reflexivity. Qed.

Lemma Cropper1_onload_overwrites (resolutionPx : option R)
    (container : option Dimensions) (s : ImageCropper1.State) (src : string)
    (image : Dimensions) (c c' : Canvas) :
  context2d c' = context2d c ->
  ImageCropper1.onload resolutionPx container s src image c' =
  ImageCropper1.onload resolutionPx container s src image c.
Proof. intros H. unfold ImageCropper1.onload. rewrite H. reflexivity. Qed.

(** Completed loads keep the canvas element and its context. *)
Lemma loads_keep_context (draw : string -> Dimensions -> Canvas -> Canvas)
    (b : Browser) (queue : list string) (c : Canvas) :
  (forall src image c0, context2d (draw src image c0) = context2d c0) ->
  exists c0,
    fold_left
      (fun canvas src =>
         match canvas, decode b src with
         | Some c1, Some image => Some (draw src image c1)
         | _, _ => canvas
         end)
      queue (Some c) = Some c0
    /\ context2d c0 = context2d c.
Proof.
  intros Hdraw. revert c.
  induction queue as [| src queue IH]; intros c; cbn.
  - exists c. split; reflexivity.
  - destruct (decode b src) as [image |].
    + destruct (IH (draw src image c)) as (c0 & Hfold & Hctx).
      exists c0. split; [exact Hfold |]. rewrite Hctx. apply Hdraw.
    + apply IH.
Qed.

(** Loads that never complete leave the canvas alone. *)
Lemma loads_undecodable (draw : string -> Dimensions -> Canvas -> Canvas)
    (b : Browser) (queue : list string) (canvas : option Canvas) :
  (forall src, In src queue -> decode b src = None) ->
  fold_left
    (fun canvas src =>
       match canvas, decode b src with
       | Some c1, Some image => Some (draw src image c1)
       | _, _ => canvas
       end)
    queue canvas = canvas.
Proof.
  revert canvas. induction queue as [| src queue IH]; intros canvas H; cbn.
  - reflexivity.
  - rewrite (H src) by (left; reflexivity).
    replace (match canvas with Some _ | _ => canvas end) with canvas
      by (destruct canvas; reflexivity).
    apply IH. intros src' Hin. apply H. right. exact Hin.
Qed.

(** X6.  In both canvas croppers, once the pending image loads have
    completed, the canvas shows the drawing of the last load alone, made from
    the ref cells as they are then: when the last pending source decodes, the
    earlier loads leave no trace. *)
Theorem X6_last_load_shows :
  (forall b w c queue src image,
     ImageCropper0.canvasRef w = Some c ->
     ImageCropper0.loading w = queue ++ [src] ->
     decode b src = Some image ->
     ImageCropper0.canvasRef (ImageCropper0.settle b w) =
     Some (ImageCropper0.onload (ImageCropper0.refs w) src image c))
  /\ (forall b resolutionPx w c queue src image,
        ImageCropper1.canvasRef w = Some c ->
        ImageCropper1.loading w = queue ++ [src] ->
        decode b src = Some image ->
        ImageCropper1.canvasRef (ImageCropper1.settle b resolutionPx w) =
        Some (ImageCropper1.onload resolutionPx
                (ImageCropper1.canvasContainerRef w) (ImageCropper1.refs w)
                src image c)).
Proof.
  split.
  - intros b w c queue src image Hc Hq Himg.
    unfold ImageCropper0.settle. cbn [ImageCropper0.canvasRef].
    rewrite Hc, Hq, fold_left_app.
    destruct (loads_keep_context (ImageCropper0.onload (ImageCropper0.refs w))
                b queue c (fun _ _ _ => eq_refl)) as (c0 & -> & Hctx).
    cbn. rewrite Himg. f_equal.
    apply Cropper0_onload_overwrites. exact Hctx.
  - intros b resolutionPx w c queue src image Hc Hq Himg.
    unfold ImageCropper1.settle. cbn [ImageCropper1.canvasRef].
    rewrite Hc, Hq, fold_left_app.
    destruct (loads_keep_context
                (ImageCropper1.onload resolutionPx
                   (ImageCropper1.canvasContainerRef w) (ImageCropper1.refs w))
                b queue c (fun _ _ _ => eq_refl)) as (c0 & -> & Hctx).
    cbn. rewrite Himg. f_equal.
    apply Cropper1_onload_overwrites. exact Hctx.
Qed.

Lemma X6_last_load_shows_witness :
  let w := ImageCropper1.handleImageChange (upload sample_url)
             (ImageCropper1.mounted true sample_dims) in
  ImageCropper1.canvasRef w = Some (createCanvas true)
  /\ ImageCropper1.loading w = [sample_url; sample_url; sample_url] ++ [sample_url]
  /\ decode sample_browser sample_url = Some {| width := 300; height := 200 |}
  /\ ImageCropper1.canvasRef (ImageCropper1.settle sample_browser None w) =
     Some (ImageCropper1.onload None (Some sample_dims) (ImageCropper1.refs w)
             sample_url {| width := 300; height := 200 |} (createCanvas true)).
Proof.
  cbv zeta. split; [reflexivity | split; [reflexivity | split; [reflexivity |]]].
  exact (proj2 X6_last_load_shows sample_browser None
           (ImageCropper1.handleImageChange (upload sample_url)
              (ImageCropper1.mounted true sample_dims))
           (createCanvas true)
           [sample_url; sample_url; sample_url] sample_url
           {| width := 300; height := 200 |} eq_refl eq_refl eq_refl).
Defined.

(** X7.  In both canvas croppers the completion of the pending loads leaves
    the ref cells as they were and empties the queue, so a second completion
    changes nothing; and when none of the pending sources decodes (such as
    the empty source of a cropper no image was uploaded to), the canvas stays
    as it was. *)
Theorem X7_loads_settle :
  (forall b w,
     ImageCropper0.refs (ImageCropper0.settle b w) = ImageCropper0.refs w
     /\ ImageCropper0.loading (ImageCropper0.settle b w) = []
     /\ ImageCropper0.settle b (ImageCropper0.settle b w) = ImageCropper0.settle b w
     /\ ((forall src, In src (ImageCropper0.loading w) -> decode b src = None) ->
         ImageCropper0.canvasRef (ImageCropper0.settle b w) =
         ImageCropper0.canvasRef w))
  /\ (forall b resolutionPx w,
        ImageCropper1.refs (ImageCropper1.settle b resolutionPx w) =
          ImageCropper1.refs w
        /\ ImageCropper1.loading (ImageCropper1.settle b resolutionPx w) = []
        /\ ImageCropper1.settle b resolutionPx (ImageCropper1.settle b resolutionPx w) =
           ImageCropper1.settle b resolutionPx w
        /\ ((forall src, In src (ImageCropper1.loading w) -> decode b src = None) ->
            ImageCropper1.canvasRef (ImageCropper1.settle b resolutionPx w) =
            ImageCropper1.canvasRef w)).
Proof.
  split.
  - intros b w. repeat split.
    intros H. unfold ImageCropper0.settle. cbn [ImageCropper0.canvasRef].
    apply (loads_undecodable
             (ImageCropper0.onload (ImageCropper0.refs w)) b _ _ H).
  - intros b resolutionPx w. repeat split.
    intros H. unfold ImageCropper1.settle. cbn [ImageCropper1.canvasRef].
    apply (loads_undecodable
             (ImageCropper1.onload resolutionPx
                (ImageCropper1.canvasContainerRef w) (ImageCropper1.refs w))
             b _ _ H).
Qed.

Lemma X7_loads_settle_witness :
  let w := ImageCropper1.handleZoomChange 1.2
             (ImageCropper1.mounted true sample_dims) in
  ImageCropper1.loading w = [EmptyString]
  /\ (forall src, In src (ImageCropper1.loading w) ->
                  decode sample_browser src = None)
  /\ ImageCropper1.canvasRef (ImageCropper1.settle sample_browser None w) =
     Some (createCanvas true).
Proof.
  cbv zeta.
  assert (H : forall src,
             In src (ImageCropper1.loading
                       (ImageCropper1.handleZoomChange 1.2
                          (ImageCropper1.mounted true sample_dims))) ->
             decode sample_browser src = None).
  { intros src [<- | []]. reflexivity. }
  split; [reflexivity | split; [exact H |]].
  apply (proj2 (proj2 (proj2
           (proj2 X7_loads_settle sample_browser None
              (ImageCropper1.handleZoomChange 1.2
                 (ImageCropper1.mounted true sample_dims)))))).
  exact H.
Defined.

(** ** Submits of the canvas croppers *)

Lemma Cropper1_set_refs_canvasRef (s : ImageCropper1.State)
    (w : ImageCropper1.World) :
  ImageCropper1.canvasRef (ImageCropper1.set_refs s w) = ImageCropper1.canvasRef w.
Proof. reflexivity. Qed.

Lemma Cropper1_step_canvasRef (b : Browser) (resolutionPx : option R)
    (w : ImageCropper1.World) (ev : ImageCropper1.Event) :
  match ev with
  | ImageCropper1.ImagesLoaded => True
  | _ =>
      ImageCropper1.canvasRef (ImageCropper1.step b resolutionPx w ev) =
      ImageCropper1.canvasRef w
  end.
Proof.
  destruct ev as [e | v | v | v | v | [mx my] | [ds da] | ]; cbn; [| | | | | | | exact I];
    unfold ImageCropper1.handleImageChange, ImageCropper1.onDrag,
      ImageCropper1.onPinch, ImageCropper1.handleZoomChange,
      ImageCropper1.handleRotationChange, ImageCropper1.handlePanXChange,
      ImageCropper1.handlePanYChange;
    try destruct (uploaded e); cbv zeta;
    repeat first [ rewrite Cropper1_updateCanvas_canvasRef
                 | rewrite Cropper1_set_refs_canvasRef ];
    reflexivity.
Qed.

(** X8.  In both canvas croppers a submit exports what is on the canvas, and
    no handler draws before its image load completes: a submit that follows
    an upload, a slider change, a drag, a pinch or a wheel event before the
    loads complete has the same effects as a submit before that event. *)
Theorem X8_submit_before_load :
  (forall b resolutionPx w ev,
     match ev with
     | ImageCropper1.ImagesLoaded => True
     | _ =>
         ImageCropper1.handleSubmit b (ImageCropper1.step b resolutionPx w ev) =
         ImageCropper1.handleSubmit b w
     end)
  /\ (forall b w,
        (forall e,
           ImageCropper0.handleSubmit b (ImageCropper0.handleImageChange e w) =
           ImageCropper0.handleSubmit b w)
        /\ (forall e,
              ImageCropper0.handleSubmit b (ImageCropper0.trackpadGestureHandler e w) =
              ImageCropper0.handleSubmit b w)
        /\ (forall delta,
              ImageCropper0.handleSubmit b (ImageCropper0.onDrag delta w) =
              ImageCropper0.handleSubmit b w)
        /\ (forall offset,
              ImageCropper0.handleSubmit b (ImageCropper0.onPinch offset w) =
              ImageCropper0.handleSubmit b w)
        /\ (forall v rest,
              option_map (ImageCropper0.handleSubmit b)
                (ImageCropper0.handleZoomChange (v :: rest) w) =
              Some (ImageCropper0.handleSubmit b w))
        /\ (forall v rest,
              option_map (ImageCropper0.handleSubmit b)
                (ImageCropper0.handleRotationChange (v :: rest) w) =
              Some (ImageCropper0.handleSubmit b w))
        /\ (forall v rest,
              option_map (ImageCropper0.handleSubmit b)
                (ImageCropper0.handlePanXChange (v :: rest) w) =
              Some (ImageCropper0.handleSubmit b w))
        /\ (forall v rest,
              option_map (ImageCropper0.handleSubmit b)
                (ImageCropper0.handlePanYChange (v :: rest) w) =
              Some (ImageCropper0.handleSubmit b w))).
Proof.
  split.
  - intros b resolutionPx w ev.
    pose proof (Cropper1_step_canvasRef b resolutionPx w ev) as H.
    destruct ev; try exact I; unfold ImageCropper1.handleSubmit;
      rewrite H; reflexivity.
  - intros b w. unfold ImageCropper0.handleSubmit. repeat apply conj.
    + intros e. unfold ImageCropper0.handleImageChange. cbv zeta.
      destruct (uploaded e); rewrite ?Cropper0_updateCanvas_canvasRef; reflexivity.
    + intros e. unfold ImageCropper0.trackpadGestureHandler.
      destruct (ImageCropper0.ctrlKey e); cbv zeta;
        rewrite ?Cropper0_updateCanvas_canvasRef; reflexivity.
    + intros [mx my]. unfold ImageCropper0.onDrag. cbv zeta.
      rewrite Cropper0_updateCanvas_canvasRef. reflexivity.
    + intros [ds da]. unfold ImageCropper0.onPinch.
      rewrite Cropper0_updateCanvas_canvasRef. reflexivity.
    + intros v rest. cbn. rewrite Cropper0_updateCanvas_canvasRef. reflexivity.
    + intros v rest. cbn. rewrite Cropper0_updateCanvas_canvasRef. reflexivity.
    + intros v rest. cbn. rewrite Cropper0_updateCanvas_canvasRef. reflexivity.
    + intros v rest. cbn. rewrite Cropper0_updateCanvas_canvasRef. reflexivity.
Qed.

(** ** Where the drawings put the image *)

Lemma quotient_nonzero (a b : R) : a <> 0 -> b <> 0 -> a / b <> 0.
Proof.
  intros Ha Hb. unfold Rdiv. apply Rmult_integral_contrapositive_currified.
  - exact Ha.
  - apply Rinv_neq_0_compat. exact Hb.
Qed.

(** What the three calls before [drawImage] make of a point of user
    space. *)
Lemma painted_translate_rotate_scale (tx ty a z : R) (src : string)
    (sx sy sWidth sHeight dx dy dWidth dHeight : R) (u : Vector2) :
  painted identity
    [Translate tx ty; Rotate a; Scale z z;
     DrawImage src sx sy sWidth sHeight dx dy dWidth dHeight] u =
  let v := destination_point sx sy sWidth sHeight dx dy dWidth dHeight u in
  Some {| x := tx + z * (cos a * x v - sin a * y v);
          y := ty + z * (sin a * x v + cos a * y v) |}.
Proof. cbn. unfold apply. cbn. f_equal. f_equal; ring. Qed.

Lemma painted_translate_rotate (tx ty a : R) (src : string)
    (sx sy sWidth sHeight dx dy dWidth dHeight : R) (u : Vector2) :
  painted identity
    [Translate tx ty; Rotate a;
     DrawImage src sx sy sWidth sHeight dx dy dWidth dHeight] u =
  let v := destination_point sx sy sWidth sHeight dx dy dWidth dHeight u in
  Some {| x := tx + (cos a * x v - sin a * y v);
          y := ty + (sin a * x v + cos a * y v) |}.
Proof. cbn. unfold apply. cbn. f_equal. f_equal; ring. Qed.



(** X11.  Without rotation and pan both div croppers draw the image scaled by
    the zoom about its centre, which sits at (size / 2, size / 2): the point
    (u, v) of an image of width w and height h is painted at
    (size / 2 + zoom * (u - w / 2), size / 2 + zoom * (v - h / 2)), [size]
    being [resolutionPx] when given and min(w, h) otherwise; when [size] is a
    whole number from 0 to 2^31 - 1 it is the side of the canvas.  The scale
    is the zoom whatever [resolutionPx] is: the resolution sets the side of
    the canvas, not the size of the image on it. *)
Theorem X11_div_export_scales_about_centre :
  (forall p dims s image canvas u,
     width image <> 0 -> height image <> 0 ->
     width dims <> 0 -> height dims <> 0 ->
     ImageCropperWithDiv2.rotation p s = 0 ->
     ImageCropperWithDiv2.pan p s = {| x := 0; y := 0 |} ->
     let drawn := ImageCropperWithDiv2.onload p dims s image canvas in
     let size :=
       ImageCropperWithDiv2.resolutionPx p
       ?? Js.Math_min (width image) (height image) in
     let z := ImageCropperWithDiv2.zoom p s in
     painted identity (calls drawn) u =
       Some {| x := size / 2 + z * (x u - width image / 2);
               y := size / 2 + z * (y u - height image / 2) |}
     /\ (forall n : Z,
           (0 <= n <= 2147483647)%Z -> size = IZR n ->
           cwidth drawn = size /\ cheight drawn = size))
  /\ (forall resolutionPx dims s image canvas u,
        width image <> 0 -> height image <> 0 ->
        width dims <> 0 -> height dims <> 0 ->
        ImageCropperWithDiv1.rotation s = 0 ->
        ImageCropperWithDiv1.pan s = {| x := 0; y := 0 |} ->
        let drawn := ImageCropperWithDiv1.onload resolutionPx dims s image canvas in
        let size := resolutionPx ?? Js.Math_min (width image) (height image) in
        let z := ImageCropperWithDiv1.zoom s in
        painted identity (calls drawn) u =
          Some {| x := size / 2 + z * (x u - width image / 2);
                  y := size / 2 + z * (y u - height image / 2) |}
        /\ (forall n : Z,
              (0 <= n <= 2147483647)%Z -> size = IZR n ->
              cwidth drawn = size /\ cheight drawn = size)).
Proof.
  assert (Hwhole : forall size (n : Z),
            (0 <= n <= 2147483647)%Z -> size = IZR n ->
            assigned_width size = size /\ assigned_height size = size).
  { intros size n Hn ->. unfold assigned_width, assigned_height.
    rewrite !assigned_dimension_whole by exact Hn. split; reflexivity. }
  split.
  - intros p dims s image canvas u Hw Hh Hdw Hdh Hrot Hpan. cbv zeta.
    unfold ImageCropperWithDiv2.onload. cbn [calls cwidth cheight x y].
    split; [| apply Hwhole].
    rewrite painted_translate_rotate_scale. cbv zeta.
    rewrite Hrot, Hpan. replace (0 * PI / 180) with 0 by lra.
    rewrite cos_0, sin_0. unfold destination_point. cbn [x y].
    f_equal. f_equal; field; repeat split; assumption.
  - intros resolutionPx dims s image canvas u Hw Hh Hdw Hdh Hrot Hpan. cbv zeta.
    unfold ImageCropperWithDiv1.onload. cbn [calls cwidth cheight x y].
    split; [| apply Hwhole].
    rewrite painted_translate_rotate_scale. cbv zeta.
    rewrite Hrot, Hpan. replace (0 * PI / 180) with 0 by lra.
    rewrite cos_0, sin_0. unfold destination_point. cbn [x y].
    f_equal. f_equal; field; repeat split; assumption.
Qed.

Lemma X11_div_export_scales_about_centre_witness :
  let image := {| width := 300; height := 200 |} in
  let p := ImageCropperWithDiv2.no_props in
  let s := ImageCropperWithDiv2.initial in
  let drawn := ImageCropperWithDiv2.onload p sample_dims s image (createCanvas true) in
  let size := Js.Math_min 300 200 in
  width image <> 0 /\ height image <> 0
  /\ width sample_dims <> 0 /\ height sample_dims <> 0
  /\ ImageCropperWithDiv2.rotation p s = 0
  /\ ImageCropperWithDiv2.pan p s = {| x := 0; y := 0 |}
  /\ painted identity (calls drawn) {| x := 0; y := 0 |} =
     Some {| x := size / 2 + 1 * (0 - 300 / 2);
             y := size / 2 + 1 * (0 - 200 / 2) |}.
Proof.
  cbv zeta.
  assert (Hw : width {| width := 300; height := 200 |} <> 0) by (cbn; lra).
  assert (Hh : height {| width := 300; height := 200 |} <> 0) by (cbn; lra).
  assert (Hdw : width sample_dims <> 0) by (cbn; lra).
  assert (Hdh : height sample_dims <> 0) by (cbn; lra).
  split; [exact Hw | split; [exact Hh | split; [exact Hdw | split; [exact Hdh |]]]].
  split; [reflexivity | split; [reflexivity |]].
  exact (proj1 (proj1 X11_div_export_scales_about_centre
                  ImageCropperWithDiv2.no_props
                  sample_dims ImageCropperWithDiv2.initial
                  {| width := 300; height := 200 |} (createCanvas true)
                  {| x := 0; y := 0 |} Hw Hh Hdw Hdh eq_refl eq_refl)).
Defined.

(** ** The preview *)





(** ** Drags *)



(** X15.  In both div croppers two drags handled by the handlers of one and
    the same render do not accumulate: each computes the new pan from the pan
    and the zoom of that render, so the second overwrites the first, and the
    state is as if only the second drag had happened (in the part_002
    component: the internal cells, under any props). *)
Theorem X15_same_render_drags_overwrite :
  (forall render delta1 delta2 s,
     ImageCropperWithDiv1.onDrag render delta2
       (ImageCropperWithDiv1.onDrag render delta1 s) =
     ImageCropperWithDiv1.onDrag render delta2 s)
  /\ (forall p render delta1 delta2 s,
        fst (ImageCropperWithDiv2.onDrag p render delta2
               (fst (ImageCropperWithDiv2.onDrag p render delta1 s))) =
        fst (ImageCropperWithDiv2.onDrag p render delta2 s)).
Proof.
  split.
  - intros render [mx1 my1] [mx2 my2] s. reflexivity.
  - intros p render [mx1 my1] [mx2 my2] s.
    unfold ImageCropperWithDiv2.onDrag. rewrite !Div2_seq_fst.
    unfold ImageCropperWithDiv2.handlePanXChange,
      ImageCropperWithDiv2.handlePanYChange, ImageCropperWithDiv2.setPan.
    destruct (ImageCropperWithDiv2.prop_setPan p); reflexivity.
Qed.

(** ** Caller-held state in the part_002 component *)

(** X16.  In the [ImageCropperWithDiv] of part_002, when the caller passes all
    four setters no event ever writes an internal cell, and an upload calls
    them in the order setImageSrc(data URL), setPan(updater putting x to 0),
    setZoom(1), setRotation(0); when the caller passes no setter, no event
    makes a setter call. *)
Theorem X16_setters_or_cells :
  (forall p,
     all_setters p ->
     (forall b dims ev s,
        fst (ImageCropperWithDiv2.step b dims p ev s) = s)
     /\ (forall e dataUrl s,
           uploaded e = Some dataUrl ->
           exists f,
             snd (ImageCropperWithDiv2.handleImageChange p e s) =
             [ImageCropperWithDiv2.PropSetImageSrc dataUrl;
              ImageCropperWithDiv2.PropSetPan f;
              ImageCropperWithDiv2.PropSetZoom 1;
              ImageCropperWithDiv2.PropSetRotation 0]
             /\ forall prev, f prev = {| x := 0; y := y prev |}))
  /\ (forall p,
        no_setters p ->
        forall b dims ev s,
          filter is_setter_call (snd (ImageCropperWithDiv2.step b dims p ev s)) = []).
Proof.
  split.
  - intros p (Hi & Hz & Hr & Hp). split.
    + intros b dims ev s.
      destruct ev as [e | v | v | v | v | [mx my] | [ds da] | ]; cbn;
        unfold ImageCropperWithDiv2.handleImageChange,
          ImageCropperWithDiv2.onDrag, ImageCropperWithDiv2.onPinch,
          ImageCropperWithDiv2.handleZoomChange,
          ImageCropperWithDiv2.handleRotationChange,
          ImageCropperWithDiv2.handlePanXChange,
          ImageCropperWithDiv2.handlePanYChange,
          ImageCropperWithDiv2.setImageSrc, ImageCropperWithDiv2.setZoom,
          ImageCropperWithDiv2.setRotation, ImageCropperWithDiv2.setPan;
        rewrite ?Hi, ?Hz, ?Hr, ?Hp; try destruct (uploaded e); reflexivity.
    + intros e dataUrl s Hup.
      unfold ImageCropperWithDiv2.handleImageChange,
        ImageCropperWithDiv2.handleZoomChange,
        ImageCropperWithDiv2.handleRotationChange,
        ImageCropperWithDiv2.handlePanXChange,
        ImageCropperWithDiv2.setImageSrc, ImageCropperWithDiv2.setZoom,
        ImageCropperWithDiv2.setRotation, ImageCropperWithDiv2.setPan.
      rewrite Hup, Hi, Hz, Hr, Hp. cbn. rewrite clamp_one.
      eexists. split; [reflexivity |]. intros prev. reflexivity.
  - intros p (Hi & Hz & Hr & Hp) b dims ev s.
    destruct ev as [e | v | v | v | v | [mx my] | [ds da] | ]; cbn;
      unfold ImageCropperWithDiv2.handleImageChange,
        ImageCropperWithDiv2.onDrag, ImageCropperWithDiv2.onPinch,
        ImageCropperWithDiv2.handleZoomChange,
        ImageCropperWithDiv2.handleRotationChange,
        ImageCropperWithDiv2.handlePanXChange,
        ImageCropperWithDiv2.handlePanYChange,
        ImageCropperWithDiv2.setImageSrc, ImageCropperWithDiv2.setZoom,
        ImageCropperWithDiv2.setRotation, ImageCropperWithDiv2.setPan;
      rewrite ?Hi, ?Hz, ?Hr, ?Hp; try destruct (uploaded e); try reflexivity.
    induction (ImageCropperWithDiv2.drawToCanvas b p dims s) as [| eff effs IH];
      [reflexivity | exact IH].
Qed.

Lemma X16_setters_or_cells_witness :
  let p := controlled_props 2 30 sample_url {| x := 5; y := 7 |} in
  all_setters p
  /\ no_setters ImageCropperWithDiv2.no_props
  /\ fst (ImageCropperWithDiv2.step sample_browser sample_dims p
            (ImageCropperWithDiv2.ZoomSlider 0.7) ImageCropperWithDiv2.initial) =
     ImageCropperWithDiv2.initial
  /\ filter is_setter_call
       (snd (ImageCropperWithDiv2.step sample_browser sample_dims
               ImageCropperWithDiv2.no_props
               (ImageCropperWithDiv2.ZoomSlider 0.7)
               ImageCropperWithDiv2.initial)) = [].
Proof.
  cbv zeta.
  assert (Ha : all_setters (controlled_props 2 30 sample_url {| x := 5; y := 7 |}))
    by (repeat split).
  assert (Hn : no_setters ImageCropperWithDiv2.no_props) by (repeat split).
  split; [exact Ha | split; [exact Hn | split]].
  - apply (proj1 (proj1 X16_setters_or_cells _ Ha)).
  - apply (proj2 X16_setters_or_cells _ Hn).
Defined.

(** ** Uploads *)

Lemma uploaded_first_file (e : ChangeEvent) (dataUrl : string) :
  uploaded e = Some dataUrl <->
  exists file rest,
    files e = Some (file :: rest)
    /\ readAsDataURL file = LoadEvent (Some (ResultString dataUrl)).
Proof.
  unfold uploaded, first_file, Js.optional, Js.index0, string_result. split.
  - destruct (files e) as [[| file rest] |]; try discriminate.
    destruct (readAsDataURL file) as [[[d | |] |] |] eqn:Hread; try discriminate.
    intros [= ->]. exists file, rest. split; [reflexivity | exact Hread].
  - intros (file & rest & -> & ->). reflexivity.
Qed.



(** X18.  When the read of the first file delivers no string (no load event,
    a null target, an ArrayBuffer or a null result), the three later
    croppers leave their whole state as it was, start no image load and make
    no call. *)
Theorem X18_failed_read_changes_nothing (file : File) (rest : list File) :
  (forall dataUrl, readAsDataURL file <> LoadEvent (Some (ResultString dataUrl))) ->
  let e := {| files := Some (file :: rest) |} in
  (forall s, ImageCropperWithDiv1.handleImageChange e s = s)
  /\ (forall p s, ImageCropperWithDiv2.handleImageChange p e s = (s, []))
  /\ (forall w, ImageCropper1.handleImageChange e w = w).
Proof.
  intros Hread. cbv zeta.
  assert (Hup : uploaded {| files := Some (file :: rest) |} = None).
  { destruct (uploaded {| files := Some (file :: rest) |}) as [d |] eqn:H;
      [| reflexivity].
    apply uploaded_first_file in H.
    destruct H as (file' & rest' & [= <- <-] & Hstr).
    destruct (Hread d Hstr). }
  unfold ImageCropperWithDiv1.handleImageChange,
    ImageCropperWithDiv2.handleImageChange, ImageCropper1.handleImageChange.
  rewrite Hup. repeat split.
Qed.

Lemma X18_failed_read_changes_nothing_witness :
  let file := {| readAsDataURL := LoadEvent (Some ResultArrayBuffer) |} in
  (forall dataUrl, readAsDataURL file <> LoadEvent (Some (ResultString dataUrl)))
  /\ ImageCropper1.handleImageChange {| files := Some [file] |}
       (ImageCropper1.mounted true sample_dims) =
     ImageCropper1.mounted true sample_dims.
Proof.
  cbv zeta.
  assert (H : forall dataUrl,
             readAsDataURL {| readAsDataURL := LoadEvent (Some ResultArrayBuffer) |}
             <> LoadEvent (Some (ResultString dataUrl)))
    by (intros dataUrl; cbn; discriminate).
  split; [exact H |].
  apply (proj2 (proj2 (X18_failed_read_changes_nothing
                         {| readAsDataURL := LoadEvent (Some ResultArrayBuffer) |}
                         [] H))).
Defined.

(** X19.  Handling the same file-change event twice leaves the transform
    state and the image source as handling it once does, in every cropper
    (in the part_002 component: the internal cells, under any props). *)
Theorem X19_upload_idempotent (e : ChangeEvent) :
  (forall s,
     ImageCropperWithDiv1.handleImageChange e
       (ImageCropperWithDiv1.handleImageChange e s) =
     ImageCropperWithDiv1.handleImageChange e s)
  /\ (forall p s,
        fst (ImageCropperWithDiv2.handleImageChange p e
               (fst (ImageCropperWithDiv2.handleImageChange p e s))) =
        fst (ImageCropperWithDiv2.handleImageChange p e s))
  /\ (forall w,
        ImageCropper1.refs
          (ImageCropper1.handleImageChange e (ImageCropper1.handleImageChange e w)) =
        ImageCropper1.refs (ImageCropper1.handleImageChange e w))
  /\ (forall w,
        ImageCropper0.refs
          (ImageCropper0.handleImageChange e (ImageCropper0.handleImageChange e w)) =
        ImageCropper0.refs (ImageCropper0.handleImageChange e w)).
Proof.
  repeat apply conj.
  - intros s. unfold ImageCropperWithDiv1.handleImageChange.
    destruct (uploaded e); reflexivity.
  - intros p s. unfold ImageCropperWithDiv2.handleImageChange.
    destruct (uploaded e) as [dataUrl |]; [| reflexivity].
    rewrite !Div2_seq_fst.
    unfold ImageCropperWithDiv2.handleRotationChange,
      ImageCropperWithDiv2.handleZoomChange,
      ImageCropperWithDiv2.handlePanXChange, ImageCropperWithDiv2.setRotation,
      ImageCropperWithDiv2.setZoom, ImageCropperWithDiv2.setPan,
      ImageCropperWithDiv2.setImageSrc.
    destruct (ImageCropperWithDiv2.prop_setRotation p),
      (ImageCropperWithDiv2.prop_setZoom p), (ImageCropperWithDiv2.prop_setPan p),
      (ImageCropperWithDiv2.prop_setImageSrc p); reflexivity.
  - intros w. unfold ImageCropper1.handleImageChange.
    destruct (uploaded e); [| reflexivity]. cbv zeta. cropper1_refs.
    reflexivity.
  - intros w. unfold ImageCropper0.handleImageChange.
    destruct (uploaded e); cbv zeta; rewrite ?Cropper0_updateCanvas_refs;
      reflexivity.
Qed.

(** ** The ref cells and the canvas *)

(** X20.  In the [ImageCropper] of src/src/ImageCropperWithDiv.tsx what an
    event does to the ref cells depends on the ref cells alone: not on the
    canvas, the container, the pending loads, the page or [resolutionPx].
    The transform state is kept up to date even when nothing can be drawn. *)
Theorem X20_refs_independent_of_canvas (b b' : Browser)
    (resolutionPx resolutionPx' : option R) (w w' : ImageCropper1.World)
    (ev : ImageCropper1.Event) :
  ImageCropper1.refs w = ImageCropper1.refs w' ->
  ImageCropper1.refs (ImageCropper1.step b resolutionPx w ev) =
  ImageCropper1.refs (ImageCropper1.step b' resolutionPx' w' ev).
Proof.
  intros H.
  destruct ev as [e | v | v | v | v | [mx my] | [ds da] | ];
    unfold ImageCropper1.step, ImageCropper1.handleImageChange,
      ImageCropper1.onDrag, ImageCropper1.onPinch;
    try destruct (uploaded e); cbv zeta; cropper1_refs; cbn;
    rewrite ?H; reflexivity.
Qed.

Lemma X20_refs_independent_of_canvas_witness :
  let w := ImageCropper1.mounted true sample_dims in
  let w' := {| ImageCropper1.refs := ImageCropper1.initial;
               ImageCropper1.canvasRef := None;
               ImageCropper1.canvasContainerRef := None;
               ImageCropper1.loading := [] |} in
  ImageCropper1.refs w = ImageCropper1.refs w'
  /\ ImageCropper1.refs
       (ImageCropper1.step sample_browser None w (ImageCropper1.Drag (3, 4))) =
     ImageCropper1.refs
       (ImageCropper1.step sample_browser (Some 512) w' (ImageCropper1.Drag (3, 4))).
Proof.
  cbv zeta. split; [reflexivity |].
  apply X20_refs_independent_of_canvas. reflexivity.
Defined.

(** ** The drawing of part_000 *)

(** X21.  The [ImageCropper] of part_000 draws the image at zoom times its
    own size on a canvas whose side is the shorter side of the image: the
    destination rectangle is (width * zoom) by (height * zoom), and at a zoom
    of 1 or more it is at least as large as the canvas in both directions. *)
Theorem X21_part000_drawn_size (s : ImageCropper0.State) (src : string)
    (image : Dimensions) (canvas : Canvas) :
  let drawn := ImageCropper0.onload s src image canvas in
  destination_size (calls drawn) =
    Some {| width := width image * ImageCropper0.zoom s;
            height := height image * ImageCropper0.zoom s |}
  /\ (0 <= width image -> 0 <= height image -> 1 <= ImageCropper0.zoom s ->
      cwidth drawn <= width image * ImageCropper0.zoom s
      /\ cheight drawn <= height image * ImageCropper0.zoom s).
Proof.
  cbv zeta. split; [reflexivity |].
  intros Hw Hh Hz. unfold ImageCropper0.onload. cbn [cwidth cheight].
  unfold Js.Math_min.
  pose proof (Rmin_l (width image) (height image)).
  pose proof (Rmin_r (width image) (height image)).
  split; nra.
Qed.

Lemma X21_part000_drawn_size_witness :
  let image := {| width := 300; height := 200 |} in
  let drawn := ImageCropper0.onload ImageCropper0.initial sample_url image
                 (createCanvas true) in
  0 <= width image /\ 0 <= height image
  /\ 1 <= ImageCropper0.zoom ImageCropper0.initial
  /\ cwidth drawn <= width image * ImageCropper0.zoom ImageCropper0.initial.
Proof.
  cbv zeta.
  assert (Hw : 0 <= width {| width := 300; height := 200 |}) by (cbn; lra).
  assert (Hh : 0 <= height {| width := 300; height := 200 |}) by (cbn; lra).
  assert (Hz : 1 <= ImageCropper0.zoom ImageCropper0.initial) by (cbn; lra).
  split; [exact Hw | split; [exact Hh | split; [exact Hz |]]].
  exact (proj1 (proj2 (X21_part000_drawn_size ImageCropper0.initial sample_url
                         {| width := 300; height := 200 |} (createCanvas true))
                  Hw Hh Hz)).
Defined.

(** ** Submits without an image *)

(** X22.  In both div croppers a submit whose image source never loads (such
    as the empty source before any upload) only calls [preventDefault]:
    nothing is encoded, downloaded or passed to [onCrop].  In both canvas
    croppers a submit with a canvas that yields a context always downloads
    the encoding of that canvas, whether or not an image was ever drawn on
    it. *)
Theorem X22_submit_without_image :
  (forall b p dims s,
     decode b (ImageCropperWithDiv2.imageSrc p s) = None ->
     ImageCropperWithDiv2.handleSubmit b p dims s = [PreventDefault])
  /\ (forall b resolutionPx dims s,
        decode b (ImageCropperWithDiv1.imageSrc s) = None ->
        ImageCropperWithDiv1.handleSubmit b resolutionPx dims s = [PreventDefault])
  /\ (forall b w c,
        ImageCropper0.canvasRef w = Some c -> context2d c = true ->
        ImageCropper0.handleSubmit b w =
        [PreventDefault; Download (toDataURL b c) "cropped-image.png"])
  /\ (forall b w c,
        ImageCropper1.canvasRef w = Some c -> context2d c = true ->
        ImageCropper1.handleSubmit b w =
        [PreventDefault; Download (toDataURL b c) "cropped-image.png"]).
Proof.
  repeat apply conj.
  - intros b p dims s H.
    unfold ImageCropperWithDiv2.handleSubmit, ImageCropperWithDiv2.drawToCanvas.
    rewrite H. cbn. destruct (supports2d b); reflexivity.
  - intros b resolutionPx dims s H.
    unfold ImageCropperWithDiv1.handleSubmit, ImageCropperWithDiv1.updateCanvas.
    rewrite H. cbn. destruct (supports2d b); reflexivity.
  - intros b w c Hc H2d. unfold ImageCropper0.handleSubmit.
    rewrite Hc. cbn. rewrite H2d. reflexivity.
  - intros b w c Hc H2d. unfold ImageCropper1.handleSubmit.
    rewrite Hc. cbn. rewrite H2d. reflexivity.
Qed.

Lemma X22_submit_without_image_witness :
  decode sample_browser
    (ImageCropperWithDiv2.imageSrc ImageCropperWithDiv2.no_props
       ImageCropperWithDiv2.initial) = None
  /\ ImageCropperWithDiv2.handleSubmit sample_browser
       ImageCropperWithDiv2.no_props sample_dims ImageCropperWithDiv2.initial =
     [PreventDefault]
  /\ ImageCropper0.canvasRef (ImageCropper0.mounted true) = Some (createCanvas true)
  /\ context2d (createCanvas true) = true
  /\ ImageCropper0.handleSubmit sample_browser (ImageCropper0.mounted true) =
     [PreventDefault; Download "data:image/png;base64,BB" "cropped-image.png"].
Proof.
  split; [reflexivity | split; [| split; [reflexivity | split; [reflexivity |]]]].
  - apply (proj1 X22_submit_without_image). reflexivity.
  - apply (proj1 (proj2 (proj2 X22_submit_without_image)) sample_browser
             (ImageCropper0.mounted true) (createCanvas true));
      reflexivity.
Defined.

(** ** The zoom slider *)

(** X23.  The zoom sliders run from 0.5 to 1.5; on that range the clamp of
    [handleZoomChange] changes nothing: the three later croppers store the
    slider value itself (in the part_002 component when the caller passes no
    [setZoom]; with [setZoom] it is called with that value). *)
Theorem X23_slider_range_unclamped (v : R) :
  0.5 <= v <= 1.5 ->
  (forall s,
     ImageCropperWithDiv1.zoom (ImageCropperWithDiv1.handleZoomChange v s) = v)
  /\ (forall w,
        ImageCropper1.zoom
          (ImageCropper1.refs (ImageCropper1.handleZoomChange v w)) = v)
  /\ (forall p s,
        if ImageCropperWithDiv2.prop_setZoom p
        then ImageCropperWithDiv2.handleZoomChange p v s =
             (s, [ImageCropperWithDiv2.PropSetZoom v])
        else ImageCropperWithDiv2.zoomState
               (fst (ImageCropperWithDiv2.handleZoomChange p v s)) = v
             /\ snd (ImageCropperWithDiv2.handleZoomChange p v s) = []).
Proof.
  intros Hv.
  assert (Hmax : Js.Math_max 0.25 v = v) by (apply Math_max_above; lra).
  repeat apply conj.
  - intros s. cbn. exact Hmax.
  - intros w. rewrite Cropper1_refs_handleZoomChange. cbn. exact Hmax.
  - intros p s. unfold ImageCropperWithDiv2.handleZoomChange,
      ImageCropperWithDiv2.setZoom. cbv zeta. rewrite Hmax.
    destruct (ImageCropperWithDiv2.prop_setZoom p); cbn; repeat split.
Qed.

Lemma X23_slider_range_unclamped_witness :
  0.5 <= 0.75 <= 1.5
  /\ ImageCropperWithDiv1.zoom
       (ImageCropperWithDiv1.handleZoomChange 0.75 ImageCropperWithDiv1.initial) =
     0.75.
Proof.
  assert (H : 0.5 <= 0.75 <= 1.5) by lra.
  split; [exact H |].
  apply (proj1 (X23_slider_range_unclamped 0.75 H)).
Defined.

(** ** An upload and the export *)


